(** * hop: configuration registry and rigid-body dynamics of a thrust-vectored drone

    A shallow embedding of [hop/constants.py] and [hop/drone_model.py].

    - [Module np] and [Module ca] model the few operations of numpy and
      CasADi that the two source files call.
    - [Module Constants] is the configuration registry: its constructor and
      its [__repr__].
    - [Module DroneModel] is the dynamics model: the four right-hand sides
      built by [DroneModel.__init__], read as functions of the values given
      to the state and control symbols.
    - [Module Spec] writes the same equations a second time, in the words of
      the specification, over plain real vectors.

    Python floats are read as exact numbers: the literals of the registry
    are rationals ([Q], so the registry computes), and the symbolic
    expressions of the model denote reals ([R]).  A division by zero makes
    an entry undefined ([Undef]); an operation CasADi rejects (shapes that
    do not fit, an index out of range) yields [Error]. *)

From Stdlib Require Import String Ascii.
From Stdlib Require Import Reals Lra Psatz QArith Qabs Qreals Qfield.
From Stdlib Require Import List ZArith Bool Arith Lia.
Import ListNotations.

Set Implicit Arguments.

(** ** Lists: the helpers shared by the matrix models *)

Section ListHelpers.
Variables X Y Z : Type.

(** Pointwise combination of two lists of the same length; [None] when
    the lengths differ. *)
Fixpoint zip_with (f : X -> Y -> Z) (xs : list X) (ys : list Y) : option (list Z) :=
  match xs, ys with
  | [], [] => Some []
  | x :: xs', y :: ys' =>
      match zip_with f xs' ys' with
      | Some zs => Some (f x y :: zs)
      | None => None
      end
  | _, _ => None
  end.

(** As [zip_with], for a combination that can fail. *)
Fixpoint zip_with_opt (f : X -> Y -> option Z) (xs : list X) (ys : list Y) : option (list Z) :=
  match xs, ys with
  | [], [] => Some []
  | x :: xs', y :: ys' =>
      match f x y, zip_with_opt f xs' ys' with
      | Some z, Some zs => Some (z :: zs)
      | _, _ => None
      end
  | _, _ => None
  end.

(** A test on the pairs of two lists of the same length; [false] when the
    lengths differ. *)
Fixpoint all2 (f : X -> Y -> bool) (xs : list X) (ys : list Y) : bool :=
  match xs, ys with
  | [], [] => true
  | x :: xs', y :: ys' => f x y && all2 f xs' ys'
  | _, _ => false
  end.
End ListHelpers.

(** Number of columns of a list of rows (that of the first row). *)
Definition ncols {X} (rows : list (list X)) : nat :=
  match rows with
  | [] => 0
  | r :: _ => length r
  end.

(** Every row has [c] entries. *)
Definition rectangular {X} (c : nat) (rows : list (list X)) : bool :=
  forallb (fun r => length r =? c) rows.

(** Columns of a list of rows, read with the default [d] where a row is short. *)
Definition columns {X} (d : X) (rows : list (list X)) : list (list X) :=
  map (fun j => map (fun r => nth j r d) rows) (seq 0 (ncols rows)).

(** ** CasADi: the symbolic matrices the model is built from *)

Module ca.

(** The value of a scalar expression at a valuation of the symbols: a real,
    or undefined after a division by zero or a root of a negative. *)
Inductive SXElem : Type :=
| Undef
| Val (r : R).

Definition lift1 (f : R -> R) (x : SXElem) : SXElem :=
  match x with
  | Val a => Val (f a)
  | Undef => Undef
  end.

Definition lift2 (f : R -> R -> R) (x y : SXElem) : SXElem :=
  match x, y with
  | Val a, Val b => Val (f a b)
  | _, _ => Undef
  end.

Definition eadd := lift2 Rplus.
Definition esub := lift2 Rminus.
Definition emul := lift2 Rmult.
Definition eneg := lift1 Ropp.

Definition ediv (x y : SXElem) : SXElem :=
  match x, y with
  | Val a, Val b => if Req_EM_T b 0 then Undef else Val (a / b)
  | _, _ => Undef
  end.

Definition esqrt (x : SXElem) : SXElem :=
  match x with
  | Val a => if Rlt_dec a 0 then Undef else Val (sqrt a)
  | Undef => Undef
  end.

(** A matrix of scalar expressions, dense, as its list of rows; [Error]
    stands for the exception CasADi raises on operands it rejects. *)
Inductive SX : Type :=
| Error
| Dense (rows : list (list SXElem)).

(** A Python number used where a matrix is expected is a 1-by-1 matrix. *)
Definition sc (r : R) : SX := Dense [[Val r]].

(** A column of defined entries, and a matrix of defined entries. *)
Definition column (xs : list R) : SX := Dense (map (fun x => [Val x]) xs).
Definition matrix (rows : list (list R)) : SX := Dense (map (map Val) rows).

(** [ca.vertcat]: the arguments stacked; they must agree on the number of
    columns. *)
Fixpoint vertcat_rows (ms : list SX) : option (list (list SXElem)) :=
  match ms with
  | [] => Some []
  | Error :: _ => None
  | Dense A :: rest =>
      match vertcat_rows rest with
      | Some B => Some (A ++ B)
      | None => None
      end
  end.

Definition vertcat (ms : list SX) : SX :=
  match vertcat_rows ms with
  | Some A => if rectangular (ncols A) A then Dense A else Error
  | None => Error
  end.

(** [ca.horzcat]: the arguments side by side; they must agree on the number
    of rows. *)
Fixpoint horzcat (ms : list SX) : SX :=
  match ms with
  | [] => Dense []
  | [m] => m
  | Error :: _ => Error
  | Dense A :: rest =>
      match horzcat rest with
      | Dense B =>
          match zip_with (@app SXElem) A B with
          | Some C => Dense C
          | None => Error
          end
      | Error => Error
      end
  end.

(** Elementwise operations. *)
Definition unary (f : SXElem -> SXElem) (A : SX) : SX :=
  match A with
  | Dense rows => Dense (map (map f) rows)
  | Error => Error
  end.

(** A binary elementwise operation: a 1-by-1 operand is broadcast, otherwise
    the shapes must be equal. *)
Definition binary (f : SXElem -> SXElem -> SXElem) (A B : SX) : SX :=
  match A, B with
  | Dense [[a]], Dense rows => Dense (map (map (f a)) rows)
  | Dense rows, Dense [[b]] => Dense (map (map (fun x => f x b)) rows)
  | Dense rowsA, Dense rowsB =>
      match zip_with_opt (zip_with f) rowsA rowsB with
      | Some C => Dense C
      | None => Error
      end
  | _, _ => Error
  end.

Definition plus := binary eadd.
Definition minus := binary esub.
Definition times := binary emul.
Definition rdivide := binary ediv.
Definition neg := unary eneg.
Definition sin := unary (lift1 Rtrigo_def.sin).
Definition cos := unary (lift1 Rtrigo_def.cos).
Definition power (A : SX) (n : nat) : SX := unary (lift1 (fun x => pow x n)) A.

(** [A[i]] on a column: its [i]-th entry, as a 1-by-1 matrix. *)
Definition getitem (A : SX) (i : nat) : SX :=
  match A with
  | Dense rows =>
      match nth_error rows i with
      | Some [x] => Dense [[x]]
      | _ => Error
      end
  | Error => Error
  end.

(** [A[lo:hi]] on a column: the rows from [lo] up to [hi], [hi] excluded. *)
Definition slice (A : SX) (lo hi : nat) : SX :=
  match A with
  | Dense rows =>
      if (hi <=? length rows) && rectangular 1 rows
      then Dense (firstn (hi - lo) (skipn lo rows))
      else Error
  | Error => Error
  end.

(** Sum of products of a row and a column, accumulated from zero. *)
Definition dot (r c : list SXElem) : SXElem :=
  fold_left eadd (map (fun p => emul (fst p) (snd p)) (combine r c)) (Val 0).

(** [ca.mtimes], Python's [@]: an elementwise product when one factor is
    1-by-1, otherwise rows by columns; the inner dimensions must agree. *)
Definition mtimes (A B : SX) : SX :=
  match A, B with
  | Dense [[_]], Dense _ => times A B
  | Dense _, Dense [[_]] => times A B
  | Dense rowsA, Dense rowsB =>
      if rectangular (length rowsB) rowsA && rectangular (ncols rowsB) rowsB
      then Dense (map (fun r => map (dot r) (columns Undef rowsB)) rowsA)
      else Error
  | _, _ => Error
  end.

(** [ca.cross] of two 3-vectors, both columns or both rows. *)
Definition cross (A B : SX) : SX :=
  let c a0 a1 a2 b0 b1 b2 :=
    (esub (emul a1 b2) (emul a2 b1),
     esub (emul a2 b0) (emul a0 b2),
     esub (emul a0 b1) (emul a1 b0)) in
  match A, B with
  | Dense [[a0]; [a1]; [a2]], Dense [[b0]; [b1]; [b2]] =>
      let '(x, y, z) := c a0 a1 a2 b0 b1 b2 in Dense [[x]; [y]; [z]]
  | Dense [[a0; a1; a2]], Dense [[b0; b1; b2]] =>
      let '(x, y, z) := c a0 a1 a2 b0 b1 b2 in Dense [[x; y; z]]
  | _, _ => Error
  end.

(** [ca.norm_2] of a column: the root of the sum of the squares. *)
Definition norm_2 (A : SX) : SX :=
  match A with
  | Dense rows =>
      if rectangular 1 rows
      then Dense [[esqrt (fold_left eadd (map (fun x => emul x x) (concat rows)) (Val 0))]]
      else Error
  | Error => Error
  end.

(** [ca.diag] of a column: the square matrix with it on the diagonal.  The
    zeros off the diagonal, which CasADi leaves out of the sparsity pattern,
    are entries [Val 0] here. *)
Definition diag_rows {X} (zero : X) (xs : list X) : list (list X) :=
  map (fun i => map (fun j => if i =? j then nth i xs zero else zero)
                    (seq 0 (length xs)))
      (seq 0 (length xs)).

Definition diag (A : SX) : SX :=
  match A with
  | Dense rows =>
      if rectangular 1 rows then Dense (diag_rows (Val 0) (concat rows)) else Error
  | Error => Error
  end.

(** An entry that is zero. *)
Definition is_zero (x : SXElem) : bool :=
  match x with
  | Val a => if Req_EM_T a 0 then true else false
  | Undef => false
  end.

(** Lower triangular: the entries above the diagonal are all zero. *)
Definition is_tril (rows : list (list SXElem)) : bool :=
  forallb (fun i => forallb is_zero (skipn (S i) (nth i rows [])))
          (seq 0 (length rows)).

(** Forward substitution on a lower triangular system, column by column:
    [x_i] is divided by the pivot, then taken out of the rows below, where
    the entry of the matrix is not a zero. *)
Fixpoint forward_subst (n i : nat) (rows : list (list SXElem)) (x : list SXElem)
  : list SXElem :=
  match n with
  | O => x
  | S n' =>
      let xi := ediv (nth i x Undef) (nth i (nth i rows []) Undef) in
      let x' :=
        map (fun j =>
               if j <? i then nth j x Undef
               else if j =? i then xi
               else let aji := nth i (nth j rows []) Undef in
                    if is_zero aji then nth j x Undef
                    else esub (nth j x Undef) (emul aji xi))
            (seq 0 (length x)) in
      forward_subst n' (S i) rows x'
  end.

(** [ca.solve(A, b)] for a square, lower triangular [A] and a column [b]: the
    first case of CasADi's symbolic solve (forward substitution), the one the
    diagonal [I_mat] of the model takes.  The other cases of the solve are
    not modelled and are mapped to [Error]. *)
Definition solve (A b : SX) : SX :=
  match A, b with
  | Dense rowsA, Dense rowsB =>
      if (length rowsA =? length rowsB) && rectangular (length rowsA) rowsA
         && rectangular 1 rowsB && is_tril rowsA
      then Dense (map (fun x => [x])
                      (forward_subst (length rowsA) 0 rowsA (concat rowsB)))
      else Error
  | _, _ => Error
  end.

(** [A.T], the transpose. *)
Definition transpose (A : SX) : SX :=
  match A with
  | Dense rows =>
      if rectangular (ncols rows) rows then Dense (columns Undef rows) else Error
  | Error => Error
  end.

(** Every entry of the matrix is a real. *)
Definition is_val (x : SXElem) : bool :=
  match x with
  | Val _ => true
  | Undef => false
  end.

Definition defined (A : SX) : bool :=
  match A with
  | Dense rows => forallb (forallb is_val) rows
  | Error => false
  end.

End ca.

Declare Scope sx_scope.
Delimit Scope sx_scope with sx.
Bind Scope sx_scope with ca.SX.
Infix "+" := ca.plus : sx_scope.
Infix "-" := ca.minus : sx_scope.
Infix "*" := ca.times : sx_scope.
Infix "/" := ca.rdivide : sx_scope.
Infix "**" := ca.power (at level 30, right associativity) : sx_scope.
Infix "@@" := ca.mtimes (at level 40, left associativity) : sx_scope.
Notation "- A" := (ca.neg A) : sx_scope.
Notation "A .[ i ]" := (ca.getitem A i) (at level 1, left associativity, format "A .[ i ]") : sx_scope.

(** Python's numbers, read exactly. *)
Definition float : Set := QArith_base.Q.
Definition int : Set := Z.

(** Numeric CasADi matrices ([ca.DM]), as their rows. *)
Module DM.
Record t : Set := mk { rows : list (list float) }.

(** [ca.vertcat] of numbers, and [ca.DM] of a list: a column. *)
Definition column (xs : list float) : t := mk (map (fun x => [x]) xs).

(** [ca.DM.eye(n)]. *)
Definition eye (n : nat) : t := mk (ca.diag_rows 0%Q (repeat 1%Q n)).

(** [ca.diag] of a list of numbers. *)
Definition diag (xs : list float) : t := mk (ca.diag_rows 0%Q xs).
End DM.

(** ** numpy: arrays and the matrix inverse *)

Module np.

(** One- and two-dimensional arrays of floats. *)
Record ndarray : Set := array { tolist : list float }.
Record ndarray2 : Set := array2 { tolist2 : list (list float) }.

(** The row of [rows] whose entry in column [j] is largest in absolute
    value (the first of them), with the other rows; [None] when the column
    is zero throughout. *)
Fixpoint pick_pivot (j : nat) (rows : list (list float))
  : option (list float * list (list float)) :=
  match rows with
  | [] => None
  | r :: rest =>
      match pick_pivot j rest with
      | Some (best, others) =>
          if Qle_bool (Qabs (nth j best 0%Q)) (Qabs (nth j r 0%Q))
          then Some (r, rest)
          else Some (best, r :: others)
      | None =>
          if Qeq_bool (nth j r 0%Q) 0 then None else Some (r, rest)
      end
  end.

(** [s - (s_j) * piv]: column [j] of the row [s] cleared with the scaled
    pivot row. *)
Definition eliminate (j : nat) (piv s : list float) : list float :=
  map (fun p => (snd p - nth j s 0 * fst p)%Q) (combine piv s).

(** Gauss-Jordan elimination with partial pivoting on the rows of [A | 1]:
    [done] are the rows already pivoted, in order, [todo] the others. *)
Fixpoint gauss_jordan (k j : nat) (done todo : list (list float))
  : option (list (list float)) :=
  match k with
  | O => Some done
  | S k' =>
      match pick_pivot j todo with
      | None => None
      | Some (piv, rest) =>
          let piv' := map (Qmult (/ nth j piv 0)) piv in
          gauss_jordan k' (S j)
                       (map (eliminate j piv') done ++ [piv'])
                       (map (eliminate j piv') rest)
      end
  end.

(** [np.linalg.inv]: the inverse of a square matrix; [None] stands for the
    [LinAlgError] raised on a matrix that is singular or not square. *)
Definition linalg_inv (A : ndarray2) : option ndarray2 :=
  let rows := tolist2 A in
  let n := length rows in
  if rectangular n rows
  then
    match gauss_jordan n 0 []
            (map (fun p => fst p ++ snd p) (combine rows (DM.rows (DM.eye n)))) with
    | Some red => Some (array2 (map (fun r => map Qred (skipn n r)) red))
    | None => None
    end
  else None.

(** Product of two matrices, rows by columns. *)
Definition dot (r c : list float) : float :=
  fold_left Qplus (map (fun p => (fst p * snd p)%Q) (combine r c)) 0%Q.

Definition matmul (A B : ndarray2) : ndarray2 :=
  array2 (map (fun r => map (dot r) (columns 0%Q (tolist2 B))) (tolist2 A)).

End np.

(** Two matrices of the same shape whose entries differ by at most [tol]. *)
Definition close_within (tol : float) (A B : np.ndarray2) : bool :=
  all2 (all2 (fun a b => Qle_bool (Qabs (a - b)) tol)) (np.tolist2 A) (np.tolist2 B).

(** ** Python: [str] and string formatting *)

(** The newline character. *)
Definition nl : string := String (ascii_of_nat 10) EmptyString.

(** [str(x)]; for the elements of a list, [repr(x)].  How a float, an int,
    an array or a [DM] is printed is left to the instance. *)
Class Str (A : Type) : Type := str : A -> string.

#[export] Instance Str_bool : Str bool :=
  fun b => if b then "True"%string else "False"%string.

#[export] Instance Str_list (A : Type) `{Str A} : Str (list A) :=
  fun xs => ("[" ++ String.concat ", " (map str xs) ++ "]")%string.

(** [repr] of a string. *)
Definition repr_string (x : string) : string := ("'" ++ x ++ "'")%string.

(** [f"{x:n}"] for a string [x]: padded with spaces on the right to [n]
    characters. *)
Definition ljust (n : nat) (x : string) : string :=
  (x ++ string_of_list_ascii (repeat " "%char (n - String.length x)))%string.

(** ** hop/constants.py: the configuration registry *)

Module Constants.

(** A value of the solver's option dictionary. *)
Inductive option_value : Set :=
| OInt (n : int)
| OFloat (x : float)
| OStr (s : string).

(** The attributes set by [Constants.__init__], in its order. *)
Record t : Set := mk {
  timelimit : int;
  m : float;
  l : float;
  gx : int;
  gy : int;
  gz : float;
  g : np.ndarray;
  Ixx : float;
  Iyy : float;
  Izz : float;
  moment_arm : np.ndarray;
  I : np.ndarray2;
  I_diag : list float;
  I_inv : np.ndarray2;
  tcc : float;
  a : float;
  b : float;
  c : float;
  d : float;
  outer_gimbal_range : list int;
  inner_gimbal_range : list float;
  theta_dot_constraint : float;
  thrust_dot_limit : float;
  hover_thrust : float;
  prop_thrust_constraint : float;
  diff_thrust_constraint : list float;
  dt : float;
  x0 : DM.t;
  Q : DM.t;
  R : DM.t;
  xr : DM.t;
  ur : DM.t;
  waypoints : list np.ndarray;
  nmpc_rate_constraints : bool;
  mpc_horizon : int;
  spectral_order : int;
  finite_interval_size : float;
  number_intervals : int;
  collocation_degree : int;
  ipopt_settings : list (string * option_value)
}.

(** [Constants.__init__]: every attribute from its literal, in the order
    of the source; [None] when [np.linalg.inv] raises. *)
Definition __init__ : option t :=
  let timelimit := 1%Z in
  let m := 1.5%Q in
  let l := 0.18%Q in
  let gx := 0%Z in
  let gy := 0%Z in
  let gz := (-9.81)%Q in
  let g := np.array [inject_Z gx; inject_Z gy; gz] in
  let Ixx := 0.06%Q in
  let Iyy := 0.06%Q in
  let Izz := 0.012%Q in
  let moment_arm := np.array [0; 0; - l / 2]%Q in
  let I := np.array2 [[Ixx; 0; 0]; [0; Iyy; 0]; [0; 0; Izz]]%Q in
  let I_diag := [Ixx; Iyy; Izz] in
  match np.linalg_inv I with
  | None => None
  | Some I_inv =>
      let tcc := 1.6%Q in
      let a := (1.327 * tcc)%Q in
      let b := (0.284 * tcc)%Q in
      let c := (-0.015 * tcc)%Q in
      let d := 0.1%Q in
      let outer_gimbal_range := [-20; 20]%Z in
      let inner_gimbal_range := [-13.5; 13.5]%Q in
      let theta_dot_constraint := 6.16%Q in
      let thrust_dot_limit := 20.0%Q in
      let hover_thrust := 2.529%Q in
      let prop_thrust_constraint := 50.0%Q in
      let diff_thrust_constraint := [-0.8; 0.8]%Q in
      let dt := 0.02%Q in
      let x0 := DM.column [0.0; 0.0; 0.0; 0.0; 0.0; 0.0; 0.0; 0.0; 0.0; 1.0; 0.0; 0.0; 0.0]%Q in
      let Q := DM.eye 13 in
      let R := DM.diag [0.03; 0.03; 1; 0.03]%Q in
      let xr := DM.column [0.0; 0.0; 0.0; 0.0; 0.0; 0.0; 0.0; 0.0; 0.0; 1.0; 0.0; 0.0; 0.0]%Q in
      let ur := DM.column [0.0; 0.0; hover_thrust; 0.0]%Q in
      let waypoints :=
        [np.array [0.0; 0.0; 0.0]; np.array [0.0; 0.0; 0.25]; np.array [0.0; 0.0; 0.0]]%Q in
      let nmpc_rate_constraints := false in
      let mpc_horizon := 100%Z in
      let spectral_order := 6%Z in
      let finite_interval_size := 0.3%Q in
      let number_intervals := 6%Z in
      let collocation_degree := 2%Z in
      let ipopt_settings :=
        [("ipopt.max_iter"%string, OInt 100%Z);
         ("ipopt.tol"%string, OFloat 1e-3%Q);
         ("ipopt.acceptable_tol"%string, OFloat 1e-4%Q);
         ("ipopt.print_level"%string, OInt 0%Z);
         ("ipopt.sb"%string, OStr "yes");
         ("print_time"%string, OInt 0%Z);
         ("ipopt.linear_solver"%string, OStr "ma27")] in
      Some (mk timelimit m l gx gy gz g Ixx Iyy Izz moment_arm I I_diag I_inv
               tcc a b c d
               outer_gimbal_range inner_gimbal_range theta_dot_constraint
               thrust_dot_limit hover_thrust prop_thrust_constraint
               diff_thrust_constraint
               dt x0 Q R xr ur waypoints nmpc_rate_constraints
               mpc_horizon spectral_order finite_interval_size number_intervals
               collocation_degree ipopt_settings)
  end.


(** *** [Constants.__repr__] *)

Section Repr.
Context {str_int : Str int} {str_float : Str float}.
Context {repr_ndarray : Str np.ndarray} {str_DM : Str DM.t}.

Local Open Scope string_scope.

#[local] Instance Str_option_value : Str option_value :=
  fun o =>
    match o with
    | OInt n => str n
    | OFloat y => str y
    | OStr y => repr_string y
    end.

(** [str] of a dictionary with string keys. *)
Definition str_dict (dict : list (string * option_value)) : string :=
  "{" ++ String.concat ", " (map (fun kv => repr_string (fst kv) ++ ": " ++ str (snd kv)) dict)
      ++ "}".

(** The method's frame: the instance and the local variable [s]. *)
Record frame : Set := mkframe { self : t; s : string }.

(** [s = e] and [s += e], for an expression [e] that reads the instance. *)
Definition assign (e : t -> string) (fr : frame) : frame :=
  mkframe (self fr) (e (self fr)).
Definition iadd (e : t -> string) (fr : frame) : frame :=
  mkframe (self fr) (s fr ++ e (self fr)).

Definition rule : string := "-----------------------------------------------" ++ nl.

(** The statements of the method, in order. *)
Definition body : list (frame -> frame) :=
  [ assign (fun _ => "Constants " ++ nl ++ "---------------------" ++ nl);
    iadd (fun _ => "General constants: " ++ nl);
    iadd (fun _ => rule);
    iadd (fun self => ljust 15 "flight time:" ++ "  " ++ ljust 15 (str (timelimit self)) ++ nl);
    iadd (fun _ => "Model related constants: " ++ nl);
    iadd (fun _ => rule);
    iadd (fun self => ljust 10 "m:" ++ "  " ++ ljust 15 (str (m self)) ++ nl);
    iadd (fun self => ljust 10 "l:" ++ "  " ++ ljust 15 (str (l self)) ++ nl);
    iadd (fun self => ljust 10 "gx:" ++ "  " ++ ljust 15 (str (gx self)) ++ nl);
    iadd (fun self => ljust 10 "gy:" ++ "  " ++ ljust 15 (str (gy self)) ++ nl);
    iadd (fun self => ljust 10 "gz:" ++ "  " ++ ljust 15 (str (gz self)) ++ nl);
    iadd (fun self => ljust 10 "g:" ++ "  " ++ ljust 15 (str (np.tolist (g self))) ++ nl);
    iadd (fun self => ljust 10 "Ixx:" ++ "  " ++ ljust 15 (str (Ixx self)) ++ nl);
    iadd (fun self => ljust 10 "Iyy:" ++ "  " ++ ljust 15 (str (Iyy self)) ++ nl);
    iadd (fun self => ljust 10 "Izz:" ++ "  " ++ ljust 15 (str (Izz self)) ++ nl);
    iadd (fun self => ljust 20 "moment arm:" ++ "  " ++ str (np.tolist (moment_arm self)) ++ nl);
    iadd (fun self => ljust 20 "I_inv:" ++ "  " ++ str (np.tolist2 (I_inv self)) ++ nl);
    iadd (fun _ => "thrust model constants: " ++ nl);
    iadd (fun _ => rule);
    iadd (fun self => ljust 10 "tcc:" ++ "  " ++ ljust 15 (str (tcc self)) ++ nl);
    iadd (fun self => ljust 10 "a:" ++ "  " ++ ljust 15 (str (a self)) ++ nl);
    iadd (fun self => ljust 10 "b:" ++ "  " ++ ljust 15 (str (b self)) ++ nl);
    iadd (fun self => ljust 10 "c:" ++ "  " ++ ljust 15 (str (c self)) ++ nl);
    iadd (fun self => ljust 10 "d:" ++ "  " ++ ljust 15 (str (d self)) ++ nl);
    iadd (fun _ => "Mechanical and hardware constants: " ++ nl);
    iadd (fun _ => rule);
    iadd (fun self => ljust 20 "outer gimbal range:" ++ "  " ++ str (outer_gimbal_range self) ++ nl);
    iadd (fun self => ljust 20 "inner gimbal range:" ++ "  " ++ str (inner_gimbal_range self) ++ nl);
    iadd (fun self => ljust 20 "theta dot max:" ++ "  " ++ str (theta_dot_constraint self) ++ nl);
    iadd (fun self => ljust 20 "thrust dot max:" ++ "  " ++ str (thrust_dot_limit self) ++ nl);
    iadd (fun self => ljust 20 "hover thrust:" ++ "  " ++ str (hover_thrust self) ++ nl);
    iadd (fun self => ljust 20 "max thrust:" ++ "  " ++ str (prop_thrust_constraint self) ++ nl);
    iadd (fun self => ljust 20 "max diff thrus:" ++ "  " ++ str (diff_thrust_constraint self) ++ nl);
    iadd (fun _ => "NMPC constants: " ++ nl);
    iadd (fun _ => rule);
    iadd (fun self => ljust 10 "dt:" ++ "  " ++ ljust 15 (str (dt self)) ++ nl);
    iadd (fun self => ljust 10 "x0:" ++ "  " ++ str (x0 self) ++ nl);
    iadd (fun self => ljust 10 "Q:" ++ "  " ++ str (Q self) ++ nl);
    iadd (fun self => ljust 10 "R:" ++ "  " ++ str (R self) ++ nl);
    iadd (fun self => ljust 10 "xr:" ++ "  " ++ str (xr self) ++ nl);
    iadd (fun self => ljust 10 "ur:" ++ "  " ++ str (ur self) ++ nl);
    iadd (fun self => ljust 20 "waypoints:" ++ "  " ++ ljust 15 (str (waypoints self)) ++ nl);
    iadd (fun self => ljust 20 "NMPC rate constraints:" ++ "  "
                        ++ str (nmpc_rate_constraints self) ++ nl);
    iadd (fun _ => "NLP constants: " ++ nl);
    iadd (fun _ => rule);
    iadd (fun self => ljust 20 "nmpc horizon:" ++ "  " ++ ljust 15 (str (mpc_horizon self)) ++ nl);
    iadd (fun self => ljust 20 "spectral order:" ++ "  " ++ ljust 15 (str (spectral_order self)) ++ nl);
    iadd (fun self => ljust 20 "size of intervals:" ++ "  "
                        ++ ljust 15 (str (finite_interval_size self)) ++ nl);
    iadd (fun self => ljust 20 "num intervals:" ++ "  " ++ ljust 15 (str (number_intervals self)) ++ nl);
    iadd (fun self => ljust 20 "collocation deg:" ++ "  "
                        ++ ljust 15 (str (collocation_degree self)) ++ nl);
    iadd (fun _ => "IPOPT settings: " ++ nl);
    iadd (fun _ => rule);
    iadd (fun self => str_dict (ipopt_settings self)) ].

(** Running the statements from a frame. *)
Definition run (stmts : list (frame -> frame)) (fr : frame) : frame :=
  fold_left (fun fr0 stmt => stmt fr0) stmts fr.

(** [Constants.__repr__]: the string returned ([return s]), and the instance
    as the call leaves it. *)
Definition __repr__ (this : t) : string * t :=
  let fr := run body (mkframe this "") in
  (s fr, self fr).

End Repr.

(** The section labels of the report, in the order of the source. *)
Definition section_labels : list string :=
  [ "General constants: "; "Model related constants: "; "thrust model constants: ";
    "Mechanical and hardware constants: "; "NMPC constants: "; "NLP constants: ";
    "IPOPT settings: " ]%string.

(** [labels] occur in [text] one after the other, without overlap. *)
Fixpoint in_order (labels : list string) (text : string) : Prop :=
  match labels with
  | [] => True
  | label :: rest =>
      exists before after : string,
        text = (before ++ label ++ after)%string /\ in_order rest after
  end.

End Constants.

(** [mc = Constants()], the instance [hop/drone_model.py] makes when it is
    loaded: the value the constructor computes. *)
Definition mc : Constants.t.
Proof.
  let r := eval vm_compute in Constants.__init__ in
  match r with
  | Some ?x => exact x
  end.
Defined.

(** A Python float in a symbolic expression is a constant, a 1-by-1 matrix. *)
Definition float2R (x : float) : R := Q2R x.
Coercion float2R : float >-> R.
Coercion ca.sc : R >-> ca.SX.

(** A list of floats, or a one-dimensional array, given to CasADi is a
    column. *)
Definition of_floats (xs : list float) : ca.SX := ca.column (map float2R xs).
Definition of_ndarray (A : np.ndarray) : ca.SX := of_floats (np.tolist A).

(** ** hop/drone_model.py: the dynamics model *)

Module DroneModel.

Definition vec3 : Type := (R * R * R)%type.
Definition vec4 : Type := (R * R * R * R)%type.

(** The values given to the state symbols [p], [v], [q], [w] (13 numbers)
    and to the control symbol [u] (4 numbers). *)
Record State : Type := mkState {
  pos : vec3;
  vel : vec3;
  quat : vec4;
  omega : vec3
}.

Definition Control : Type := vec4.

(** [set_variable(..., shape=(3,1))] and [shape=(4,1)]: a column symbol, read
    at its value. *)
Definition symbol3 (x : vec3) : ca.SX :=
  let '(x0, x1, x2) := x in ca.column [x0; x1; x2].

Definition symbol4 (x : vec4) : ca.SX :=
  let '(x0, x1, x2, x3) := x in ca.column [x0; x1; x2; x3].

Section Init.
Variable mc : Constants.t.
Variable x : State.
Variable u_val : Control.

Local Open Scope sx_scope.

Definition p : ca.SX := symbol3 (pos x).
Definition v : ca.SX := symbol3 (vel x).
Definition q : ca.SX := symbol4 (quat x).
Definition w : ca.SX := symbol3 (omega x).

Definition state : ca.SX := ca.vertcat [p; v; q; w].
Definition u : ca.SX := symbol4 u_val.

Definition I_mat : ca.SX := ca.diag (of_floats (Constants.I_diag mc)).
Definition F : ca.SX :=
  Constants.a mc * u.[2] ** 2 + Constants.b mc * u.[2] + Constants.c mc.
Definition M : ca.SX := Constants.d mc * Constants.Izz mc * u.[3].

Definition F_vector : ca.SX :=
  F * ca.vertcat
        [ca.sin ((PI / 180)%R * u.[1]);
         - ca.sin ((PI / 180)%R * u.[0]) * ca.cos ((PI / 180)%R * u.[1]);
         ca.cos ((PI / 180)%R * u.[0]) * ca.cos ((PI / 180)%R * u.[1])].

Definition roll_moment : ca.SX := ca.vertcat [ca.sc 0; ca.sc 0; M].
Definition M_vector : ca.SX :=
  ca.cross (of_ndarray (Constants.moment_arm mc)) F_vector + roll_moment.
Definition angular_momentum : ca.SX := I_mat @@ w.

Definition r_b2w : ca.SX :=
  ca.vertcat
    [ca.horzcat [1%R - 2%R * (state.[7] ** 2 + state.[8] ** 2);
                 2%R * (state.[6] * state.[7] - state.[8] * state.[9]);
                 2%R * (state.[6] * state.[8] + state.[7] * state.[9])];
     ca.horzcat [2%R * (state.[6] * state.[7] + state.[8] * state.[9]);
                 1%R - 2%R * (state.[6] ** 2 + state.[8] ** 2);
                 2%R * (state.[7] * state.[8] - state.[6] * state.[9])];
     ca.horzcat [2%R * (state.[6] * state.[8] - state.[7] * state.[9]);
                 2%R * (state.[7] * state.[8] + state.[6] * state.[9]);
                 1%R - 2%R * (state.[6] ** 2 + state.[7] ** 2)]].

Definition Q_omega : ca.SX :=
  ca.vertcat
    [ca.horzcat [ca.sc 0; state.[12]; - state.[11]; state.[10]];
     ca.horzcat [- state.[12]; ca.sc 0; state.[10]; state.[11]];
     ca.horzcat [state.[11]; - state.[10]; ca.sc 0; state.[12]];
     ca.horzcat [- state.[10]; - state.[11]; - state.[12]; ca.sc 0]].

Definition q_full : ca.SX :=
  let q_full := ca.slice state 6 10 in
  q_full / ca.norm_2 q_full.

(** The four [set_rhs] calls. *)
Definition rhs_p : ca.SX := v.
Definition rhs_v : ca.SX :=
  (r_b2w @@ F_vector) / Constants.m mc + of_ndarray (Constants.g mc).
Definition rhs_q : ca.SX := 0.5%R * Q_omega @@ q_full.
Definition rhs_w : ca.SX :=
  ca.solve I_mat (M_vector - ca.cross w angular_momentum).
End Init.

End DroneModel.


(** ** The equations in the words of the specification

    Plain real vectors and matrices, and the right-hand sides as section 4.2
    of the specification writes them; the theorems below compare them with
    what [DroneModel] builds. *)

Module Spec.

Definition dot (r c : list R) : R :=
  fold_right Rplus 0%R (map (fun p => (fst p * snd p)%R) (combine r c)).
Definition mat_vec (A : list (list R)) (y : list R) : list R :=
  map (fun r => dot r y) A.
Definition vadd (a b : list R) : list R :=
  map (fun p => (fst p + snd p)%R) (combine a b).
Definition vsub (a b : list R) : list R :=
  map (fun p => (fst p - snd p)%R) (combine a b).
Definition vscale (k : R) (a : list R) : list R := map (Rmult k) a.
Definition vcross (a b : list R) : list R :=
  match a, b with
  | [a0; a1; a2], [b0; b1; b2] =>
      [a1 * b2 - a2 * b1; a2 * b0 - a0 * b2; a0 * b1 - a1 * b0]%R
  | _, _ => []
  end.
Definition norm2 (a : list R) : R := sqrt (fold_right Rplus 0%R (map (fun y => (y * y)%R) a)).
Definition diag3 (a b c : R) : list (list R) :=
  [[a; 0; 0]; [0; b; 0]; [0; 0; c]]%R.
Definition eye3 : list (list R) := diag3 1 1 1.

(** Degrees to radians. *)
Definition rad (deg : R) : R := (PI * deg / 180)%R.

Section Equations.
Variable mc : Constants.t.
Variable x : DroneModel.State.
Variable u : DroneModel.Control.

Local Open Scope R_scope.

Definition u0 : R := let '(a, _, _, _) := u in a.
Definition u1 : R := let '(_, a, _, _) := u in a.
Definition u2 : R := let '(_, _, a, _) := u in a.
Definition u3 : R := let '(_, _, _, a) := u in a.
Definition q0 : R := let '(a, _, _, _) := DroneModel.quat x in a.
Definition q1 : R := let '(_, a, _, _) := DroneModel.quat x in a.
Definition q2 : R := let '(_, _, a, _) := DroneModel.quat x in a.
Definition q3 : R := let '(_, _, _, a) := DroneModel.quat x in a.
Definition w0 : R := let '(a, _, _) := DroneModel.omega x in a.
Definition w1 : R := let '(_, a, _) := DroneModel.omega x in a.
Definition w2 : R := let '(_, _, a) := DroneModel.omega x in a.

Definition q : list R := [q0; q1; q2; q3].
Definition w : list R := [w0; w1; w2].

(** Thrust magnitude and yaw moment. *)
Definition F : R := Constants.a mc * u2 ^ 2 + Constants.b mc * u2 + Constants.c mc.
Definition M : R := Constants.d mc * Constants.Izz mc * u3.

(** Body-frame thrust vector. *)
Definition F_vec : list R :=
  vscale F [sin (rad u1); - sin (rad u0) * cos (rad u1); cos (rad u0) * cos (rad u1)].

(** Inertia tensor, moment arm, net moment and angular momentum. *)
Definition I : list (list R) :=
  diag3 (Constants.Ixx mc) (Constants.Iyy mc) (Constants.Izz mc).
Definition moment_arm : list R := [0; 0; - Constants.l mc / 2].
Definition M_vec : list R := vadd (vcross moment_arm F_vec) [0; 0; M].
Definition L : list R := mat_vec I w.

(** The inverse of the inertia tensor: the reciprocals on the diagonal. *)
Definition I_inv : list (list R) :=
  diag3 (1 / Constants.Ixx mc) (1 / Constants.Iyy mc) (1 / Constants.Izz mc).

(** Body-to-world rotation matrix. *)
Definition Rq : list (list R) :=
  [[1 - 2 * (q1 ^ 2 + q2 ^ 2); 2 * (q0 * q1 - q2 * q3); 2 * (q0 * q2 + q1 * q3)];
   [2 * (q0 * q1 + q2 * q3); 1 - 2 * (q0 ^ 2 + q2 ^ 2); 2 * (q1 * q2 - q0 * q3)];
   [2 * (q0 * q2 - q1 * q3); 2 * (q1 * q2 + q0 * q3); 1 - 2 * (q0 ^ 2 + q1 ^ 2)]].

(** Quaternion kinematics matrix, and the renormalised quaternion. *)
Definition Qw : list (list R) :=
  [[0; w2; - w1; w0];
   [- w2; 0; w0; w1];
   [w1; - w0; 0; w2];
   [- w0; - w1; - w2; 0]].
Definition q_n : list R := vscale (/ norm2 q) q.

(** State derivatives. *)
Definition dv : list R :=
  vadd (vscale (/ Constants.m mc) (mat_vec Rq F_vec))
       (map float2R (np.tolist (Constants.g mc))).
Definition dq : list R := vscale 0.5 (mat_vec Qw q_n).
Definition dw : list R := mat_vec I_inv (vsub M_vec (vcross w L)).
End Equations.

End Spec.

(** ** Notions used to state further properties *)

Module Lin.

(** Entry [(i, j)] of a matrix of reals. *)
Definition entry (A : list (list R)) (i j : nat) : R := nth j (nth i A []) 0%R.

(** Product of two matrices of reals, rows by columns. *)
Definition mat_mul (A B : list (list R)) : list (list R) :=
  map (fun r => map (Spec.dot r) (columns 0%R B)) A.

(** Determinant of a 3-by-3 matrix, along its first row. *)
Definition det3 (A : list (list R)) : R :=
  (entry A 0 0 * (entry A 1 1 * entry A 2 2 - entry A 1 2 * entry A 2 1)
   - entry A 0 1 * (entry A 1 0 * entry A 2 2 - entry A 1 2 * entry A 2 0)
   + entry A 0 2 * (entry A 1 0 * entry A 2 1 - entry A 1 1 * entry A 2 0))%R.

(** The matrix of the cross product by [w], on the left. *)
Definition skew (w : list R) : list (list R) :=
  match w with
  | [w0; w1; w2] => [[0; - w2; w1]; [w2; 0; - w0]; [- w1; w0; 0]]%R
  | _ => []
  end.

End Lin.

(** Entry [(i, j)] of a symbolic matrix, as a real; 0 where there is none. *)
Definition sx_entry (A : ca.SX) (i j : nat) : R :=
  match A with
  | ca.Dense rows =>
      match nth j (nth i rows []) ca.Undef with
      | ca.Val r => r
      | ca.Undef => 0%R
      end
  | ca.Error => 0%R
  end.

(** A numeric matrix of the registry given to CasADi's symbolic operations. *)
Definition of_DM (A : DM.t) : ca.SX := ca.matrix (map (map float2R) (DM.rows A)).

(** The instance after [self.I = A; self.I_diag = diagonal], every other
    attribute as it was. *)
Definition set_I (this : Constants.t) (A : np.ndarray2) (diagonal : list float)
  : Constants.t :=
  Constants.mk
    (Constants.timelimit this) (Constants.m this) (Constants.l this)
    (Constants.gx this) (Constants.gy this) (Constants.gz this) (Constants.g this)
    (Constants.Ixx this) (Constants.Iyy this) (Constants.Izz this)
    (Constants.moment_arm this) A diagonal (Constants.I_inv this)
    (Constants.tcc this) (Constants.a this) (Constants.b this) (Constants.c this)
    (Constants.d this)
    (Constants.outer_gimbal_range this) (Constants.inner_gimbal_range this)
    (Constants.theta_dot_constraint this) (Constants.thrust_dot_limit this)
    (Constants.hover_thrust this) (Constants.prop_thrust_constraint this)
    (Constants.diff_thrust_constraint this)
    (Constants.dt this) (Constants.x0 this) (Constants.Q this) (Constants.R this)
    (Constants.xr this) (Constants.ur this) (Constants.waypoints this)
    (Constants.nmpc_rate_constraints this)
    (Constants.mpc_horizon this) (Constants.spectral_order this)
    (Constants.finite_interval_size this) (Constants.number_intervals this)
    (Constants.collocation_degree this) (Constants.ipopt_settings this).

(** A trajectory to try the kinematics on: the vehicle at the origin,
    turning about its z axis at 1 rad/s. *)
Definition spin (s : R) : DroneModel.State :=
  DroneModel.mkState (0, 0, 0)%R (0, 0, 0)%R
                     (0, 0, sin (s / 2), cos (s / 2))%R (0, 0, 1)%R.

Section ReportItems.
Context {str_int : Str int} {str_float : Str float}.
Context {repr_ndarray : Str np.ndarray} {str_DM : Str DM.t}.

(** The label and the printed value of every row of the report, in the
    order of [__repr__], and the dictionary of solver settings at the end. *)
Definition report_items (this : Constants.t) : list string :=
  [ "flight time:"; str (Constants.timelimit this);
    "m:"; str (Constants.m this);
    "l:"; str (Constants.l this);
    "gx:"; str (Constants.gx this);
    "gy:"; str (Constants.gy this);
    "gz:"; str (Constants.gz this);
    "g:"; str (np.tolist (Constants.g this));
    "Ixx:"; str (Constants.Ixx this);
    "Iyy:"; str (Constants.Iyy this);
    "Izz:"; str (Constants.Izz this);
    "moment arm:"; str (np.tolist (Constants.moment_arm this));
    "I_inv:"; str (np.tolist2 (Constants.I_inv this));
    "tcc:"; str (Constants.tcc this);
    "a:"; str (Constants.a this);
    "b:"; str (Constants.b this);
    "c:"; str (Constants.c this);
    "d:"; str (Constants.d this);
    "outer gimbal range:"; str (Constants.outer_gimbal_range this);
    "inner gimbal range:"; str (Constants.inner_gimbal_range this);
    "theta dot max:"; str (Constants.theta_dot_constraint this);
    "thrust dot max:"; str (Constants.thrust_dot_limit this);
    "hover thrust:"; str (Constants.hover_thrust this);
    "max thrust:"; str (Constants.prop_thrust_constraint this);
    "max diff thrus:"; str (Constants.diff_thrust_constraint this);
    "dt:"; str (Constants.dt this);
    "x0:"; str (Constants.x0 this);
    "Q:"; str (Constants.Q this);
    "R:"; str (Constants.R this);
    "xr:"; str (Constants.xr this);
    "ur:"; str (Constants.ur this);
    "waypoints:"; str (Constants.waypoints this);
    "NMPC rate constraints:"; str (Constants.nmpc_rate_constraints this);
    "nmpc horizon:"; str (Constants.mpc_horizon this);
    "spectral order:"; str (Constants.spectral_order this);
    "size of intervals:"; str (Constants.finite_interval_size this);
    "num intervals:"; str (Constants.number_intervals this);
    "collocation deg:"; str (Constants.collocation_degree this);
    Constants.str_dict (Constants.ipopt_settings this) ]%string.
End ReportItems.

(** * Properties *)

Unset Implicit Arguments.
Local Open Scope R_scope.

(** ** Evaluation of scalar operations *)

Lemma ediv_Val (a b : R) : b <> 0 -> ca.ediv (ca.Val a) (ca.Val b) = ca.Val (a / b).
Proof.
  intros Hb. unfold ca.ediv.
  destruct (Req_EM_T b 0) as [E | _]; [contradiction | reflexivity].
Qed.

Lemma ediv_by_zero (a : R) : ca.ediv (ca.Val a) (ca.Val 0) = ca.Undef.
Proof.
  unfold ca.ediv.
  destruct (Req_EM_T 0 0) as [_ | N]; [reflexivity | contradiction N; reflexivity].
Qed.

Lemma esqrt_Val (a : R) : 0 <= a -> ca.esqrt (ca.Val a) = ca.Val (sqrt a).
Proof.
  intros Ha. unfold ca.esqrt.
  destruct (Rlt_dec a 0) as [N | _]; [lra | reflexivity].
Qed.

Lemma is_zero_0 : ca.is_zero (ca.Val 0) = true.
Proof.
  unfold ca.is_zero.
  destruct (Req_EM_T 0 0) as [_ | N]; [reflexivity | contradiction N; reflexivity].
Qed.

Lemma column_inj (a b : list R) : ca.column a = ca.column b -> a = b.
Proof.
  unfold ca.column. intros H. injection H as H. revert b H.
  induction a as [| y a IH]; intros [| z b] H; try discriminate; [reflexivity |].
  cbn in H. injection H as -> H. f_equal. apply IH, H.
Qed.

Lemma rad_eq (deg : R) : Spec.rad deg = PI / 180 * deg.
Proof. unfold Spec.rad. field. Qed.

(** A state and a control, taken apart into their 13 and 4 numbers. *)
Ltac destruct_state x :=
  destruct x as [[[?p0 ?p1] ?p2] [[?v0 ?v1] ?v2] [[[?q0 ?q1] ?q2] ?q3] [[?w0 ?w1] ?w2]].
Ltac destruct_control u :=
  destruct u as [[[?u0 ?u1] ?u2] ?u3].

(** The value of a registry constant, as a quotient of integers. *)
Ltac eval_floats := unfold float2R, Q2R; cbn [Qnum Qden].

(** Entry by entry, an identity of the field of reals. *)
Ltac entrywise tac :=
  unfold ca.column, ca.matrix; cbn;
  repeat match goal with
    | |- ca.Dense _ = ca.Dense _ => apply f_equal
    | |- _ :: _ = _ :: _ => apply f_equal2
    | |- @nil _ = @nil _ => reflexivity
    | |- ca.Val _ = ca.Val _ => apply f_equal; tac
    end.

(** ** The models of numpy and CasADi on small inputs *)

Example linalg_inv_pivots :
  np.linalg_inv (np.array2 [[0; 2; 1]; [1; 1; 0]; [3; 0; 1]]%Q)
  = Some (np.array2 [[-1 # 5; 2 # 5; 1 # 5]; [1 # 5; 3 # 5; -1 # 5]; [3 # 5; -6 # 5; 2 # 5]]%Q).
Proof. vm_compute. reflexivity. Qed.

Example linalg_inv_singular :
  np.linalg_inv (np.array2 [[1; 2]; [2; 4]]%Q) = None.
Proof. vm_compute. reflexivity. Qed.

Example linalg_inv_not_square :
  np.linalg_inv (np.array2 [[1; 2; 3]; [2; 4; 5]]%Q) = None.
Proof. vm_compute. reflexivity. Qed.

Example getitem_out_of_range : ca.getitem (ca.column [1; 2]) 5 = ca.Error.
Proof. reflexivity. Qed.

Example plus_shapes_differ : ca.plus (ca.column [1; 2; 3]) (ca.column [1; 2]) = ca.Error.
Proof. reflexivity. Qed.

Example plus_broadcasts_scalar :
  ca.plus (ca.sc 1) (ca.column [1; 2]) = ca.column [1 + 1; 1 + 2].
Proof. reflexivity. Qed.

Example mtimes_inner_dimensions :
  ca.mtimes (ca.matrix [[1; 2]; [3; 4]]) (ca.column [1; 2; 3]) = ca.Error.
Proof. reflexivity. Qed.

Example rdivide_by_zero : ca.rdivide (ca.sc 1) (ca.sc 0) = ca.Dense [[ca.Undef]].
Proof. cbn -[ca.ediv]. rewrite ediv_by_zero. reflexivity. Qed.

(** ** The registry is constructed, and [mc] is its value *)

Lemma Constants_init_mc : Constants.__init__ = Some mc.
Proof. vm_compute. reflexivity. Qed.

(** ** Translational dynamics *)

(** C1: for every state and control, the right-hand side of [v] built by the
    model is [(R(q) . F_vec) / m + g], with thrust [F = a u2^2 + b u2 + c],
    the gimbal direction of [F_vec] and the rotation matrix of the raw
    quaternion as the specification writes them, at the registry's
    constants. *)
Theorem rhs_v_is_spec_dv (x : DroneModel.State) (u : DroneModel.Control) :
  DroneModel.rhs_v mc x u = ca.column (Spec.dv mc x u).
Proof.
  destruct_state x. destruct_control u.
  unfold DroneModel.rhs_v.
  cbn -[ca.ediv float2R].
  rewrite !ediv_Val by (eval_floats; lra).
  unfold Spec.dv, Spec.F_vec, Spec.F, Spec.Rq. cbn. rewrite !rad_eq.
  entrywise ltac:(eval_floats; field).
Qed.

(** ** Rotational dynamics *)

(** Forward substitution on a diagonal system divides each entry of the
    right-hand side by the pivot of its row. *)
Lemma solve_diag3 (a1 a2 a3 b1 b2 b3 : R) :
  a1 <> 0 -> a2 <> 0 -> a3 <> 0 ->
  ca.solve (ca.Dense [[ca.Val a1; ca.Val 0; ca.Val 0];
                      [ca.Val 0; ca.Val a2; ca.Val 0];
                      [ca.Val 0; ca.Val 0; ca.Val a3]])
           (ca.Dense [[ca.Val b1]; [ca.Val b2]; [ca.Val b3]])
  = ca.Dense [[ca.Val (b1 / a1)]; [ca.Val (b2 / a2)]; [ca.Val (b3 / a3)]].
Proof.
  intros H1 H2 H3.
  cbn -[ca.ediv ca.is_zero].
  rewrite !is_zero_0. cbn -[ca.ediv ca.is_zero].
  rewrite !ediv_Val by assumption.
  reflexivity.
Qed.

(** A pivot that is zero leaves its entry undefined. *)
Lemma solve_singular (a2 a3 b1 b2 b3 : R) :
  ca.solve (ca.Dense [[ca.Val 0; ca.Val 0; ca.Val 0];
                      [ca.Val 0; ca.Val a2; ca.Val 0];
                      [ca.Val 0; ca.Val 0; ca.Val a3]])
           (ca.Dense [[ca.Val b1]; [ca.Val b2]; [ca.Val b3]])
  = ca.Dense [[ca.Undef]; [ca.ediv (ca.Val b2) (ca.Val a2)];
              [ca.ediv (ca.Val b3) (ca.Val a3)]].
Proof.
  cbn -[ca.ediv ca.is_zero].
  rewrite !is_zero_0. cbn -[ca.ediv ca.is_zero].
  rewrite ediv_by_zero. reflexivity.
Qed.

(** The reciprocals on the diagonal are the inverse of the inertia tensor. *)
Lemma I_inv_is_inverse (y : list R) :
  length y = 3%nat ->
  Spec.mat_vec (Spec.I mc) (Spec.mat_vec (Spec.I_inv mc) y) = y
  /\ Spec.mat_vec (Spec.I_inv mc) (Spec.mat_vec (Spec.I mc) y) = y.
Proof.
  destruct y as [| y0 [| y1 [| y2 [| ? ?]]]]; try discriminate. intros _.
  unfold Spec.I, Spec.I_inv. cbn.
  split; repeat (f_equal; try (eval_floats; field)).
Qed.

(** C2: for every state and control, the right-hand side of [w], which the
    model computes with a linear solve against [I_mat], is the product of the
    inverse of the inertia tensor with [M_vec - w x L], where
    [M_vec = moment_arm x F_vec + (0, 0, d Izz u3)] and [L = I w]; and the
    matrix used as [I^-1], the reciprocals of the (positive) diagonal entries,
    is the inverse of [I]. *)
Theorem rhs_w_is_inverse_times_torque (x : DroneModel.State) (u : DroneModel.Control) :
  DroneModel.rhs_w mc x u = ca.column (Spec.dw mc x u)
  /\ (0 < Constants.Ixx mc /\ 0 < Constants.Iyy mc /\ 0 < Constants.Izz mc)
  /\ (forall y : list R, length y = 3%nat ->
        Spec.mat_vec (Spec.I mc) (Spec.mat_vec (Spec.I_inv mc) y) = y
        /\ Spec.mat_vec (Spec.I_inv mc) (Spec.mat_vec (Spec.I mc) y) = y).
Proof.
  split; [| split].
  - destruct_state x. destruct_control u.
    unfold DroneModel.rhs_w.
    cbn -[ca.solve float2R].
    rewrite solve_diag3 by (eval_floats; lra).
    unfold Spec.dw, Spec.M_vec, Spec.F_vec, Spec.F, Spec.L, Spec.I, Spec.I_inv, Spec.M.
    cbn. rewrite !rad_eq.
    entrywise ltac:(eval_floats; field).
  - cbn [Constants.Ixx Constants.Iyy Constants.Izz mc]. eval_floats. repeat split; lra.
  - exact I_inv_is_inverse.
Qed.

(** ** Hover *)

(** C3: with the literal defaults ([m = 1.5], [tcc = 1.6], hover throttle
    [h = 2.529], [a = 1.327 tcc], [b = 0.284 tcc], [c = -0.015 tcc]) the thrust
    polynomial at the hover throttle, which is the model's [F] there, is
    14.7048272112 N and balances the weight [m * 9.81] to within 0.05 N. *)
Theorem hover_thrust_balances_weight :
  (Constants.m mc == 1.5 /\ Constants.tcc mc == 1.6 /\ Constants.hover_thrust mc == 2.529
   /\ Constants.a mc == 1.327 * Constants.tcc mc
   /\ Constants.b mc == 0.284 * Constants.tcc mc
   /\ Constants.c mc == -0.015 * Constants.tcc mc)%Q
  /\ (forall u0 u1 u3 : R,
        DroneModel.F mc (u0, u1, float2R (Constants.hover_thrust mc), u3)
        = ca.sc (float2R (Constants.a mc * Constants.hover_thrust mc ^ 2
                          + Constants.b mc * Constants.hover_thrust mc
                          + Constants.c mc)%Q))
  /\ (Constants.a mc * Constants.hover_thrust mc ^ 2
      + Constants.b mc * Constants.hover_thrust mc
      + Constants.c mc == 14.7048272112)%Q
  /\ (Qabs (Constants.a mc * Constants.hover_thrust mc ^ 2
            + Constants.b mc * Constants.hover_thrust mc
            + Constants.c mc
            - Constants.m mc * 9.81) <= 0.05)%Q.
Proof.
  split; [| split; [| split]].
  - repeat split; vm_compute; reflexivity.
  - intros u0 u1 u3.
    let y := eval vm_compute in
      (Constants.a mc * Constants.hover_thrust mc ^ 2
       + Constants.b mc * Constants.hover_thrust mc + Constants.c mc)%Q in
    change (Constants.a mc * Constants.hover_thrust mc ^ 2
            + Constants.b mc * Constants.hover_thrust mc + Constants.c mc)%Q with y.
    unfold DroneModel.F, ca.sc.
    cbn -[float2R].
    repeat f_equal. eval_floats. field.
  - vm_compute. reflexivity.
  - apply Qabs_Qle_condition. split; vm_compute; discriminate.
Qed.

(** C4: at the identity orientation [(0,0,0,1)], with zero velocity and zero
    angular velocity, under the control [(0, 0, h, 0)] with [h] the hover
    throttle, the translational acceleration is zero in x and in y, and in z
    it is [(a h^2 + b h + c) / m - 9.81], which is within 0.01 m/s^2 of
    zero. *)
Theorem hover_acceleration (x : DroneModel.State) :
  DroneModel.quat x = (0, 0, 0, 1) ->
  DroneModel.vel x = (0, 0, 0) ->
  DroneModel.omega x = (0, 0, 0) ->
  DroneModel.rhs_v mc x (0, 0, float2R (Constants.hover_thrust mc), 0)
  = ca.column [0; 0;
               (Constants.a mc * Constants.hover_thrust mc ^ 2
                + Constants.b mc * Constants.hover_thrust mc
                + Constants.c mc) / Constants.m mc - 9.81]
  /\ Rabs ((Constants.a mc * Constants.hover_thrust mc ^ 2
            + Constants.b mc * Constants.hover_thrust mc
            + Constants.c mc) / Constants.m mc - 9.81) <= 0.01.
Proof.
  destruct_state x.
  cbn [DroneModel.quat DroneModel.vel DroneModel.omega].
  intros Hq Hv Hw. injection Hq as -> -> -> ->.
  split.
  - unfold DroneModel.rhs_v.
    cbn -[ca.ediv float2R sin cos].
    rewrite !Rmult_0_r, sin_0, cos_0.
    rewrite !ediv_Val by (eval_floats; lra).
    entrywise ltac:(eval_floats; field).
  - cbn [Constants.a Constants.b Constants.c Constants.m Constants.hover_thrust mc].
    eval_floats.
    apply Rabs_le. split; lra.
Qed.

Lemma hover_acceleration_witness :
  DroneModel.rhs_v mc (DroneModel.mkState (0, 0, 0) (0, 0, 0) (0, 0, 0, 1) (0, 0, 0))
                   (0, 0, float2R (Constants.hover_thrust mc), 0)
  = ca.column [0; 0;
               (Constants.a mc * Constants.hover_thrust mc ^ 2
                + Constants.b mc * Constants.hover_thrust mc
                + Constants.c mc) / Constants.m mc - 9.81]
  /\ Rabs ((Constants.a mc * Constants.hover_thrust mc ^ 2
            + Constants.b mc * Constants.hover_thrust mc
            + Constants.c mc) / Constants.m mc - 9.81) <= 0.01.
Proof.
  apply (hover_acceleration
           (DroneModel.mkState (0, 0, 0) (0, 0, 0) (0, 0, 0, 1) (0, 0, 0)));
    reflexivity.
Defined.

(** ** Quaternion kinematics *)

Lemma sumsq_pos (q0 q1 q2 q3 : R) :
  (q0, q1, q2, q3) <> (0, 0, 0, 0) ->
  0 < 0 + q0 * q0 + q1 * q1 + q2 * q2 + q3 * q3.
Proof.
  intros H.
  destruct (Req_dec q0 0) as [-> | H0]; [| nra].
  destruct (Req_dec q1 0) as [-> | H1]; [| nra].
  destruct (Req_dec q2 0) as [-> | H2]; [| nra].
  destruct (Req_dec q3 0) as [-> | H3]; [| nra].
  contradiction H; reflexivity.
Qed.

(** The renormalised quaternion, where the quaternion is not zero. *)
Lemma q_full_nonzero (x : DroneModel.State) :
  DroneModel.quat x <> (0, 0, 0, 0) ->
  DroneModel.q_full x = ca.column (Spec.q_n x).
Proof.
  destruct_state x.
  cbn [DroneModel.quat]. intros H. apply sumsq_pos in H.
  unfold DroneModel.q_full.
  cbn -[ca.ediv ca.esqrt].
  rewrite esqrt_Val by lra.
  assert (Hn : sqrt (0 + q0 * q0 + q1 * q1 + q2 * q2 + q3 * q3) <> 0)
    by apply Rgt_not_eq, sqrt_lt_R0, H.
  rewrite !ediv_Val by exact Hn.
  unfold Spec.q_n, Spec.norm2, Spec.q. cbn.
  replace (q0 * q0 + (q1 * q1 + (q2 * q2 + (q3 * q3 + 0))))
    with (0 + q0 * q0 + q1 * q1 + q2 * q2 + q3 * q3) by ring.
  unfold Rdiv. entrywise ltac:(ring).
Qed.

(** The right-hand side of [q], where the quaternion is not zero. *)
Lemma rhs_q_nonzero (x : DroneModel.State) :
  DroneModel.quat x <> (0, 0, 0, 0) ->
  DroneModel.rhs_q x = ca.column (Spec.dq x).
Proof.
  intros H. unfold DroneModel.rhs_q. rewrite (q_full_nonzero x H).
  destruct_state x.
  unfold Spec.dq, Spec.q_n.
  generalize (/ Spec.norm2 (Spec.q (DroneModel.mkState (p0, p1, p2) (v0, v1, v2)
                                                       (q0, q1, q2, q3) (w0, w1, w2)))).
  intros k. cbn. entrywise ltac:(ring).
Qed.

(** The right-hand side of [q] at the zero quaternion: [0 / 0] in every
    entry. *)
Lemma rhs_q_zero_quaternion (x : DroneModel.State) :
  DroneModel.quat x = (0, 0, 0, 0) ->
  DroneModel.rhs_q x = ca.Dense [[ca.Undef]; [ca.Undef]; [ca.Undef]; [ca.Undef]].
Proof.
  destruct_state x.
  cbn [DroneModel.quat]. intros H. injection H as -> -> -> ->.
  unfold DroneModel.rhs_q, DroneModel.q_full.
  cbn -[ca.ediv ca.esqrt].
  replace (0 + 0 * 0 + 0 * 0 + 0 * 0 + 0 * 0) with 0 by ring.
  rewrite esqrt_Val by lra. rewrite sqrt_0, !ediv_by_zero.
  reflexivity.
Qed.





(** ** The rotation matrix *)

Lemma unit_quaternion (x : DroneModel.State) :
  ca.norm_2 (DroneModel.q x) = ca.sc 1 ->
  Spec.q0 x * Spec.q0 x + Spec.q1 x * Spec.q1 x
  + Spec.q2 x * Spec.q2 x + Spec.q3 x * Spec.q3 x = 1.
Proof.
  destruct_state x.
  cbn -[ca.esqrt]. unfold ca.sc. intros H.
  assert (Hs : 0 <= 0 + q0 * q0 + q1 * q1 + q2 * q2 + q3 * q3) by nra.
  rewrite esqrt_Val in H by exact Hs.
  injection H as H.
  apply (f_equal (fun y => y * y)) in H.
  rewrite sqrt_sqrt in H by exact Hs. lra.
Qed.

(** An entry of [R^T R] is the entry of the identity plus a multiple of
    [1 - |q|^2]. *)
Ltac by_unit_norm H n k :=
  match goal with
  | |- ?lhs = ?rhs =>
      replace lhs with (rhs + 4 * (1 - n) * k) by (unfold n; ring);
      rewrite H; ring
  end.

(** C6: for every unit quaternion (the model's [norm_2] of [q] is 1), the
    rotation matrix [r_b2w] built by the model is the matrix [R(q)] of the
    specification and is orthogonal: [R^T R] is the 3-by-3 identity, exactly,
    in real arithmetic. *)
Theorem r_b2w_orthogonal (x : DroneModel.State) :
  ca.norm_2 (DroneModel.q x) = ca.sc 1 ->
  DroneModel.r_b2w x = ca.matrix (Spec.Rq x)
  /\ ca.mtimes (ca.transpose (DroneModel.r_b2w x)) (DroneModel.r_b2w x)
     = ca.matrix Spec.eye3.
Proof.
  intros H. apply unit_quaternion in H.
  destruct_state x.
  cbn [Spec.q0 Spec.q1 Spec.q2 Spec.q3 DroneModel.quat] in H.
  split.
  - unfold Spec.Rq. cbn. entrywise ltac:(ring).
  - set (n := q0 * q0 + q1 * q1 + q2 * q2 + q3 * q3) in H.
    unfold ca.matrix. cbn.
    do 3 (apply f_equal || apply f_equal2); repeat apply f_equal2;
      try reflexivity; apply f_equal.
    + by_unit_norm H n (- (q1 * q1 + q2 * q2)).
    + by_unit_norm H n (q0 * q1).
    + by_unit_norm H n (q0 * q2).
    + by_unit_norm H n (q0 * q1).
    + by_unit_norm H n (- (q0 * q0 + q2 * q2)).
    + by_unit_norm H n (q1 * q2).
    + by_unit_norm H n (q0 * q2).
    + by_unit_norm H n (q1 * q2).
    + by_unit_norm H n (- (q0 * q0 + q1 * q1)).
Qed.

Lemma r_b2w_orthogonal_witness :
  DroneModel.r_b2w (DroneModel.mkState (0, 0, 0) (0, 0, 0) (0, 0, 0, 1) (0, 0, 0))
  = ca.matrix (Spec.Rq (DroneModel.mkState (0, 0, 0) (0, 0, 0) (0, 0, 0, 1) (0, 0, 0)))
  /\ ca.mtimes
       (ca.transpose
          (DroneModel.r_b2w (DroneModel.mkState (0, 0, 0) (0, 0, 0) (0, 0, 0, 1) (0, 0, 0))))
       (DroneModel.r_b2w (DroneModel.mkState (0, 0, 0) (0, 0, 0) (0, 0, 0, 1) (0, 0, 0)))
     = ca.matrix Spec.eye3.
Proof.
  apply (r_b2w_orthogonal
           (DroneModel.mkState (0, 0, 0) (0, 0, 0) (0, 0, 0, 1) (0, 0, 0))).
  cbn -[ca.esqrt].
  replace (0 + 0 * 0 + 0 * 0 + 0 * 0 + 1 * 1) with 1 by ring.
  rewrite esqrt_Val by lra. rewrite sqrt_1. reflexivity.
Defined.

(** ** Norm of the quaternion along the flow *)

Lemma Q_omega_skew (x : DroneModel.State) :
  ca.transpose (DroneModel.Q_omega x) = ca.neg (DroneModel.Q_omega x).
Proof.
  destruct_state x. cbn. entrywise ltac:(ring).
Qed.

Lemma dq_orthogonal (x : DroneModel.State) : Spec.dot (Spec.q x) (Spec.dq x) = 0.
Proof.
  destruct_state x.
  unfold Spec.dq, Spec.q_n.
  generalize (/ Spec.norm2 (Spec.q (DroneModel.mkState (p0, p1, p2) (v0, v1, v2)
                                                       (q0, q1, q2, q3) (w0, w1, w2)))).
  intros k. cbn. ring.
Qed.

Lemma q_dot_rhs_q (x : DroneModel.State) :
  DroneModel.quat x <> (0, 0, 0, 0) ->
  ca.mtimes (ca.transpose (DroneModel.q x)) (DroneModel.rhs_q x) = ca.sc 0.
Proof.
  intros H. rewrite (rhs_q_nonzero x H).
  destruct_state x.
  unfold Spec.dq, Spec.q_n.
  generalize (/ Spec.norm2 (Spec.q (DroneModel.mkState (p0, p1, p2) (v0, v1, v2)
                                                       (q0, q1, q2, q3) (w0, w1, w2)))).
  intros k. unfold ca.sc. cbn. entrywise ltac:(ring).
Qed.

Lemma quat_components_nonzero (x : DroneModel.State) :
  DroneModel.quat x <> (0, 0, 0, 0) ->
  0 < Spec.q0 x * Spec.q0 x
      + (Spec.q1 x * Spec.q1 x + (Spec.q2 x * Spec.q2 x + (Spec.q3 x * Spec.q3 x + 0))).
Proof.
  destruct_state x. cbn. intros H. apply sumsq_pos in H. lra.
Qed.

(** Along a trajectory whose quaternion moves with the velocity [dq], and
    [q . dq = 0], the norm of the quaternion has derivative zero. *)
Lemma norm2_derivative (traj : R -> DroneModel.State) (t : R) (dq : list R) :
  DroneModel.quat (traj t) <> (0, 0, 0, 0) ->
  Spec.dot (Spec.q (traj t)) dq = 0 ->
  length dq = 4%nat ->
  (forall i : nat, (i < 4)%nat ->
     derivable_pt_lim (fun s => nth i (Spec.q (traj s)) 0) t (nth i dq 0)) ->
  derivable_pt_lim (fun s => Spec.norm2 (Spec.q (traj s))) t 0.
Proof.
  intros Hq E Hlen Hd.
  destruct dq as [| d0 [| d1 [| d2 [| d3 [| ? ?]]]]]; try discriminate Hlen. clear Hlen.
  pose proof (Hd 0%nat ltac:(lia)) as D0.
  pose proof (Hd 1%nat ltac:(lia)) as D1.
  pose proof (Hd 2%nat ltac:(lia)) as D2.
  pose proof (Hd 3%nat ltac:(lia)) as D3.
  clear Hd.
  pose proof (quat_components_nonzero (traj t) Hq) as Hpos.
  cbn [nth Spec.q] in D0, D1, D2, D3.
  unfold Spec.dot, Spec.q in E. cbn in E.
  set (f0 := fun s => Spec.q0 (traj s)) in *.
  set (f1 := fun s => Spec.q1 (traj s)) in *.
  set (f2 := fun s => Spec.q2 (traj s)) in *.
  set (f3 := fun s => Spec.q3 (traj s)) in *.
  set (G := ((f0 * f0) + ((f1 * f1) + ((f2 * f2) + ((f3 * f3) + fct_cte 0))))%F).
  set (dG := (d0 * f0 t + f0 t * d0)
             + ((d1 * f1 t + f1 t * d1)
                + ((d2 * f2 t + f2 t * d2) + ((d3 * f3 t + f3 t * d3) + 0)))).
  assert (D : derivable_pt_lim (comp sqrt G) t (/ (2 * sqrt (G t)) * dG)).
  { apply derivable_pt_lim_comp.
    - unfold G, dG.
      repeat first [ apply derivable_pt_lim_plus | apply derivable_pt_lim_mult
                   | apply derivable_pt_lim_const | assumption ].
    - apply derivable_pt_lim_sqrt. exact Hpos. }
  assert (Z : dG = 0).
  { unfold dG, f0, f1, f2, f3 in *. lra. }
  rewrite Z, Rmult_0_r in D. exact D.
Qed.



(** ** The inertia tensor and its inverse *)

(** The rows of a matrix compared with a given matrix, taken apart. *)
Ltac shape_of_all2 :=
  repeat match goal with
    | H : all2 _ ?rows (_ :: _) = true |- _ =>
        destruct rows as [| ? ?]; [discriminate H |];
        cbn [all2] in H; apply andb_true_iff in H; destruct H as [? ?]
    | H : all2 _ ?rows [] = true |- _ =>
        destruct rows as [| ? ?]; [clear H | discriminate H]
    end.

(** Any matrix within 1e-8 of the registry's [I_inv] multiplies [I] to the
    identity within 1e-9. *)
Lemma I_inv_tolerance (B : np.ndarray2) :
  close_within 1e-8%Q B (Constants.I_inv mc) = true ->
  close_within 1e-9%Q (np.matmul (Constants.I mc) B) (np.array2 (DM.rows (DM.eye 3))) = true.
Proof.
  destruct B as [B]. unfold close_within.
  cbn [np.tolist2 Constants.I_inv Constants.I mc].
  intros H. shape_of_all2.
  repeat match goal with
    | H : Qle_bool _ _ = true |- _ => apply Qle_bool_iff, Qabs_Qle_condition in H
    end.
  cbn -[Qplus Qmult Qminus Qabs Qle_bool Qopp].
  change (1 / 1000000000)%Q with (1 # 1000000000)%Q.
  change (1e-8)%Q with (1 # 100000000)%Q in *.
  repeat (apply andb_true_intro; split); try reflexivity;
    apply Qle_bool_iff, Qabs_Qle_condition; split; lra.
Qed.


(** The registry's [I_inv], read as reals, is the inverse the specification
    writes. *)
Lemma registry_I_inv_is_spec_I_inv :
  map (map float2R) (np.tolist2 (Constants.I_inv mc)) = Spec.I_inv mc.
Proof.
  unfold Spec.I_inv, Spec.diag3. cbn -[float2R].
  repeat (apply f_equal2; [| try reflexivity]);
    repeat (apply f_equal2; [| try reflexivity]); eval_floats; field.
Qed.

(** ** The report of the registry *)

Local Open Scope string_scope.

Lemma append_assoc (a b c : string) : (a ++ b) ++ c = a ++ (b ++ c).
Proof.
  induction a as [| ch a IH]; cbn; [reflexivity | rewrite IH; reflexivity].
Qed.

Lemma append_nonempty (a b : string) : a <> "" -> a ++ b <> "".
Proof.
  destruct a as [| ch a]; cbn; [intros H; contradiction H; reflexivity | discriminate].
Qed.

Lemma in_order_skip (labels : list string) (piece text : string) :
  Constants.in_order labels text -> Constants.in_order labels (piece ++ text).
Proof.
  destruct labels as [| label rest]; [intros _; exact I |].
  cbn [Constants.in_order]. intros [before [after [E H]]].
  exists (piece ++ before), after. split; [| exact H].
  rewrite E, append_assoc. reflexivity.
Qed.

Lemma in_order_here (label : string) (rest : list string) (text : string) :
  Constants.in_order rest text -> Constants.in_order (label :: rest) (label ++ text).
Proof.
  intros H. cbn [Constants.in_order]. exists "", text. split; [reflexivity | exact H].
Qed.

Section ReprFacts.
Context {str_int : Str int} {str_float : Str float}.
Context {repr_ndarray : Str np.ndarray} {str_DM : Str DM.t}.

(** Statements that leave the instance as it is, run one after the other,
    leave the instance as it is. *)
Lemma run_keeps_self (stmts : list (Constants.frame -> Constants.frame))
      (fr : Constants.frame) :
  Forall (fun stmt => forall fr0, Constants.self (stmt fr0) = Constants.self fr0) stmts ->
  Constants.self (Constants.run stmts fr) = Constants.self fr.
Proof.
  intros H. revert fr.
  induction H as [| stmt stmts Hstmt _ IH]; intros fr; [reflexivity |].
  cbn [Constants.run fold_left]. fold (Constants.run stmts (stmt fr)).
  rewrite IH. apply Hstmt.
Qed.

(** No statement of [__repr__] writes to the instance. *)
Lemma body_keeps_self :
  Forall (fun stmt => forall fr0, Constants.self (stmt fr0) = Constants.self fr0)
         Constants.body.
Proof.
  unfold Constants.body. repeat (constructor; [intros fr0; reflexivity |]). constructor.
Qed.

(** The string built by the statements, as one concatenation. *)
Ltac repr_text :=
  unfold Constants.__repr__;
  cbn [Constants.run Constants.body fold_left Constants.assign Constants.iadd
       Constants.self Constants.s fst snd];
  rewrite !append_assoc.

(** C8: whatever the way numbers, arrays and matrices are printed, the report
    of an instance is not empty; it contains the seven section labels
    (general, model, thrust model, mechanical, NMPC, NLP, solver settings) one
    after the other in that order; the call leaves the instance as it was;
    and a second call on the instance returns the same text. *)
Theorem repr_report (this : Constants.t) :
  fst (Constants.__repr__ this) <> ""
  /\ Constants.in_order Constants.section_labels (fst (Constants.__repr__ this))
  /\ snd (Constants.__repr__ this) = this
  /\ fst (Constants.__repr__ (snd (Constants.__repr__ this)))
     = fst (Constants.__repr__ this).
Proof.
  assert (Hself : snd (Constants.__repr__ this) = this).
  { unfold Constants.__repr__. cbn [snd].
    rewrite (run_keeps_self _ _ body_keeps_self). reflexivity. }
  split; [| split; [| split]].
  - repr_text. apply append_nonempty. discriminate.
  - unfold Constants.section_labels. repr_text.
    repeat first [ exact I | apply in_order_here | apply in_order_skip ].
  - exact Hself.
  - rewrite Hself. reflexivity.
Qed.

End ReprFacts.

(** * Further properties of the model *)

Local Open Scope R_scope.

(** ** Norms of columns *)

Lemma norm_2_column3 (a b c : R) :
  ca.norm_2 (ca.column [a; b; c]) = ca.sc (sqrt (a * a + b * b + c * c)).
Proof.
  cbn -[ca.esqrt]. rewrite esqrt_Val by nra.
  unfold ca.sc. do 4 f_equal. f_equal. ring.
Qed.

Lemma norm_2_column4 (a b c d : R) :
  ca.norm_2 (ca.column [a; b; c; d]) = ca.sc (sqrt (a * a + b * b + c * c + d * d)).
Proof.
  cbn -[ca.esqrt]. rewrite esqrt_Val by nra.
  unfold ca.sc. do 4 f_equal. f_equal. ring.
Qed.

Lemma norm_2_identity_quaternion (p v w : DroneModel.vec3) :
  ca.norm_2 (DroneModel.q (DroneModel.mkState p v (0, 0, 0, 1) w)) = ca.sc 1.
Proof.
  cbn -[ca.esqrt].
  replace (0 + 0 * 0 + 0 * 0 + 0 * 0 + 1 * 1) with 1 by ring.
  rewrite esqrt_Val by lra. rewrite sqrt_1. reflexivity.
Qed.

Lemma norm2_q_pos (x : DroneModel.State) :
  DroneModel.quat x <> (0, 0, 0, 0) -> 0 < Spec.norm2 (Spec.q x).
Proof.
  intros H. apply quat_components_nonzero in H.
  unfold Spec.norm2, Spec.q. cbn. apply sqrt_lt_R0. exact H.
Qed.

Lemma norm2_q_sqr (x : DroneModel.State) :
  Spec.norm2 (Spec.q x) * Spec.norm2 (Spec.q x)
  = Spec.q0 x * Spec.q0 x + Spec.q1 x * Spec.q1 x
    + Spec.q2 x * Spec.q2 x + Spec.q3 x * Spec.q3 x.
Proof.
  unfold Spec.norm2, Spec.q. cbn. rewrite sqrt_sqrt; [ring | nra].
Qed.

Lemma unit_quat_nonzero (x : DroneModel.State) :
  ca.norm_2 (DroneModel.q x) = ca.sc 1 -> DroneModel.quat x <> (0, 0, 0, 0).
Proof.
  intros H E. apply unit_quaternion in H.
  destruct_state x. cbn in H, E. injection E as -> -> -> ->. lra.
Qed.

(** ** The renormalised quaternion *)







(** ** The thrust vector *)

(** X4: whatever the gimbal angles, the body-frame thrust vector has
    magnitude [|F|]: the gimbal only turns the thrust. *)
Theorem F_vector_norm (u : DroneModel.Control) :
  ca.norm_2 (DroneModel.F_vector mc u) = ca.sc (Rabs (Spec.F mc u)).
Proof.
  destruct_control u.
  unfold DroneModel.F_vector. cbn -[ca.norm_2 float2R sin cos].
  change (ca.Dense [[ca.Val ?a]; [ca.Val ?b]; [ca.Val ?c]]) with (ca.column [a; b; c]).
  rewrite norm_2_column3. unfold ca.sc. do 4 f_equal.
  unfold Spec.F. cbn -[float2R].
  rewrite <- sqrt_Rsqr_abs. f_equal. unfold Rsqr.
  pose proof (sin2_cos2 (PI / 180 * u0)) as E0.
  pose proof (sin2_cos2 (PI / 180 * u1)) as E1.
  unfold Rsqr in E0, E1.
  set (s0 := sin (PI / 180 * u0)) in *. set (c0 := cos (PI / 180 * u0)) in *.
  set (s1 := sin (PI / 180 * u1)) in *. set (c1 := cos (PI / 180 * u1)) in *.
  match goal with
  | |- _ = ?f * ?f =>
      transitivity (f * f * (s1 * s1 + (s0 * s0 + c0 * c0) * (c1 * c1))); [ring |]
  end.
  rewrite E0. replace (s1 * s1 + 1 * (c1 * c1)) with (s1 * s1 + c1 * c1) by ring.
  rewrite E1. ring.
Qed.

(** ** The rotation matrix *)

Lemma r_b2w_is_Rq (x : DroneModel.State) : DroneModel.r_b2w x = ca.matrix (Spec.Rq x).
Proof. destruct_state x. unfold Spec.Rq. cbn. entrywise ltac:(ring). Qed.

(** X5: the rotation matrix does not tell [q] from [-q], and the quaternion
    with the opposite vector part gives the transposed matrix. *)
Theorem r_b2w_symmetries (x x' : DroneModel.State) :
  (DroneModel.quat x' = (- Spec.q0 x, - Spec.q1 x, - Spec.q2 x, - Spec.q3 x) ->
     DroneModel.r_b2w x' = DroneModel.r_b2w x)
  /\ (DroneModel.quat x' = (- Spec.q0 x, - Spec.q1 x, - Spec.q2 x, Spec.q3 x) ->
      DroneModel.r_b2w x' = ca.transpose (DroneModel.r_b2w x)).
Proof.
  destruct_state x. destruct_state x'.
  cbn [DroneModel.quat Spec.q0 Spec.q1 Spec.q2 Spec.q3].
  split; intros H; injection H as -> -> -> ->; cbn; entrywise ltac:(ring).
Qed.

(** X6: for a unit quaternion the matrix is a proper rotation: [R R^T] is
    the identity as well, and the determinant is 1. *)
Theorem r_b2w_proper_rotation (x : DroneModel.State) :
  ca.norm_2 (DroneModel.q x) = ca.sc 1 ->
  ca.mtimes (DroneModel.r_b2w x) (ca.transpose (DroneModel.r_b2w x)) = ca.matrix Spec.eye3
  /\ DroneModel.r_b2w x = ca.matrix (Spec.Rq x)
  /\ Lin.det3 (Spec.Rq x) = 1.
Proof.
  intros H. apply unit_quaternion in H.
  split; [| split; [exact (r_b2w_is_Rq x) |]].
  - destruct_state x.
    cbn [Spec.q0 Spec.q1 Spec.q2 Spec.q3 DroneModel.quat] in H.
    set (n := q0 * q0 + q1 * q1 + q2 * q2 + q3 * q3) in H.
    unfold ca.matrix. cbn.
    do 3 (apply f_equal || apply f_equal2); repeat apply f_equal2;
      try reflexivity; apply f_equal.
    + by_unit_norm H n (- (q1 * q1 + q2 * q2)).
    + by_unit_norm H n (q0 * q1).
    + by_unit_norm H n (q0 * q2).
    + by_unit_norm H n (q0 * q1).
    + by_unit_norm H n (- (q0 * q0 + q2 * q2)).
    + by_unit_norm H n (q1 * q2).
    + by_unit_norm H n (q0 * q2).
    + by_unit_norm H n (q1 * q2).
    + by_unit_norm H n (- (q0 * q0 + q1 * q1)).
  - destruct_state x.
    cbn [Spec.q0 Spec.q1 Spec.q2 Spec.q3 DroneModel.quat] in H.
    set (n := q0 * q0 + q1 * q1 + q2 * q2 + q3 * q3) in H.
    unfold Lin.det3, Lin.entry, Spec.Rq. cbn.
    by_unit_norm H n (- (q0 * q0 + q1 * q1 + q2 * q2)).
Qed.

Lemma r_b2w_proper_rotation_witness :
  ca.mtimes (DroneModel.r_b2w (DroneModel.mkState (0, 0, 0) (0, 0, 0) (0, 0, 0, 1) (0, 0, 0)))
            (ca.transpose
               (DroneModel.r_b2w
                  (DroneModel.mkState (0, 0, 0) (0, 0, 0) (0, 0, 0, 1) (0, 0, 0))))
  = ca.matrix Spec.eye3
  /\ DroneModel.r_b2w (DroneModel.mkState (0, 0, 0) (0, 0, 0) (0, 0, 0, 1) (0, 0, 0))
     = ca.matrix (Spec.Rq (DroneModel.mkState (0, 0, 0) (0, 0, 0) (0, 0, 0, 1) (0, 0, 0)))
  /\ Lin.det3 (Spec.Rq (DroneModel.mkState (0, 0, 0) (0, 0, 0) (0, 0, 0, 1) (0, 0, 0))) = 1.
Proof.
  apply (r_b2w_proper_rotation
           (DroneModel.mkState (0, 0, 0) (0, 0, 0) (0, 0, 0, 1) (0, 0, 0))).
  apply norm_2_identity_quaternion.
Defined.

Lemma isometry_identity (q0 q1 q2 q3 a b c : R) :
  q0 * q0 + q1 * q1 + q2 * q2 + q3 * q3 = 1 ->
  ((1 - 2 * (q1 * q1 + q2 * q2)) * a + 2 * (q0 * q1 - q2 * q3) * b
   + 2 * (q0 * q2 + q1 * q3) * c)
  * ((1 - 2 * (q1 * q1 + q2 * q2)) * a + 2 * (q0 * q1 - q2 * q3) * b
     + 2 * (q0 * q2 + q1 * q3) * c)
  + (2 * (q0 * q1 + q2 * q3) * a + (1 - 2 * (q0 * q0 + q2 * q2)) * b
     + 2 * (q1 * q2 - q0 * q3) * c)
    * (2 * (q0 * q1 + q2 * q3) * a + (1 - 2 * (q0 * q0 + q2 * q2)) * b
       + 2 * (q1 * q2 - q0 * q3) * c)
  + (2 * (q0 * q2 - q1 * q3) * a + 2 * (q1 * q2 + q0 * q3) * b
     + (1 - 2 * (q0 * q0 + q1 * q1)) * c)
    * (2 * (q0 * q2 - q1 * q3) * a + 2 * (q1 * q2 + q0 * q3) * b
       + (1 - 2 * (q0 * q0 + q1 * q1)) * c)
  = a * a + b * b + c * c.
Proof.
  intros H. set (n := q0 * q0 + q1 * q1 + q2 * q2 + q3 * q3) in H.
  by_unit_norm H n ((q0 * a + q1 * b + q2 * c) * (q0 * a + q1 * b + q2 * c)
                    - (q0 * q0 + q1 * q1 + q2 * q2) * (a * a + b * b + c * c)).
Qed.

(** X7: for a unit quaternion the rotation keeps lengths: a body-frame
    vector and its image in the world frame have the same 2-norm. *)
Theorem r_b2w_preserves_length (x : DroneModel.State) (a b c : R) :
  ca.norm_2 (DroneModel.q x) = ca.sc 1 ->
  ca.norm_2 (ca.mtimes (DroneModel.r_b2w x) (ca.column [a; b; c]))
  = ca.norm_2 (ca.column [a; b; c]).
Proof.
  intros H. apply unit_quaternion in H.
  destruct_state x.
  cbn [Spec.q0 Spec.q1 Spec.q2 Spec.q3 DroneModel.quat] in H.
  cbn -[ca.norm_2].
  change (ca.Dense [[ca.Val ?r0]; [ca.Val ?r1]; [ca.Val ?r2]])
    with (ca.column [r0; r1; r2]).
  rewrite !norm_2_column3. unfold ca.sc. do 4 f_equal. f_equal.
  rewrite <- (isometry_identity q0 q1 q2 q3 a b c H). ring.
Qed.

Lemma r_b2w_preserves_length_witness :
  ca.norm_2 (ca.mtimes
               (DroneModel.r_b2w
                  (DroneModel.mkState (0, 0, 0) (0, 0, 0) (0, 0, 0, 1) (0, 0, 0)))
               (ca.column [1; 2; 3]))
  = ca.norm_2 (ca.column [1; 2; 3]).
Proof.
  apply (r_b2w_preserves_length
           (DroneModel.mkState (0, 0, 0) (0, 0, 0) (0, 0, 0, 1) (0, 0, 0)) 1 2 3).
  apply norm_2_identity_quaternion.
Defined.

(** X8: the matrix is orthogonal only for a unit quaternion, or for a
    quaternion whose vector part is zero (then it is the identity whatever
    the scalar part): unlike the kinematics, it is not renormalised. *)
Theorem r_b2w_orthogonal_iff (x : DroneModel.State) :
  ca.mtimes (ca.transpose (DroneModel.r_b2w x)) (DroneModel.r_b2w x) = ca.matrix Spec.eye3
  <-> (Spec.q0 x * Spec.q0 x + Spec.q1 x * Spec.q1 x
       + Spec.q2 x * Spec.q2 x + Spec.q3 x * Spec.q3 x = 1
       \/ (Spec.q0 x = 0 /\ Spec.q1 x = 0 /\ Spec.q2 x = 0)).
Proof.
  destruct_state x. cbn [Spec.q0 Spec.q1 Spec.q2 Spec.q3 DroneModel.quat].
  set (n := q0 * q0 + q1 * q1 + q2 * q2 + q3 * q3).
  split.
  - unfold ca.matrix. cbn. intros H.
    injection H as H00 _ _ _ H11 _ _ _ _.
    assert (E0 : (1 - n) * (q1 * q1 + q2 * q2) = 0).
    { match type of H00 with
      | ?lhs = _ =>
          assert (lhs = 1 + 4 * (1 - n) * (- (q1 * q1 + q2 * q2))) by (unfold n; ring)
      end.
      lra. }
    assert (E1 : (1 - n) * (q0 * q0 + q2 * q2) = 0).
    { match type of H11 with
      | ?lhs = _ =>
          assert (lhs = 1 + 4 * (1 - n) * (- (q0 * q0 + q2 * q2))) by (unfold n; ring)
      end.
      lra. }
    destruct (Req_dec n 1) as [En | Nn]; [left; exact En | right].
    apply Rmult_integral in E0, E1.
    destruct E0 as [E0 | E0]; [lra |]. destruct E1 as [E1 | E1]; [lra |].
    repeat split; nra.
  - intros [H | (-> & -> & ->)].
    + unfold ca.matrix. cbn.
      do 3 (apply f_equal || apply f_equal2); repeat apply f_equal2;
        try reflexivity; apply f_equal.
      * by_unit_norm H n (- (q1 * q1 + q2 * q2)).
      * by_unit_norm H n (q0 * q1).
      * by_unit_norm H n (q0 * q2).
      * by_unit_norm H n (q0 * q1).
      * by_unit_norm H n (- (q0 * q0 + q2 * q2)).
      * by_unit_norm H n (q1 * q2).
      * by_unit_norm H n (q0 * q2).
      * by_unit_norm H n (q1 * q2).
      * by_unit_norm H n (- (q0 * q0 + q1 * q1)).
    + cbn. entrywise ltac:(ring).
Qed.

(** ** Rotational dynamics *)

Lemma rhs_w_column (x : DroneModel.State) (u : DroneModel.Control) :
  DroneModel.rhs_w mc x u = ca.column (Spec.dw mc x u).
Proof.
  destruct_state x. destruct_control u.
  unfold DroneModel.rhs_w.
  cbn -[ca.solve float2R].
  rewrite solve_diag3 by (eval_floats; lra).
  unfold Spec.dw, Spec.M_vec, Spec.F_vec, Spec.F, Spec.L, Spec.I, Spec.I_inv, Spec.M.
  cbn. rewrite !rad_eq.
  entrywise ltac:(eval_floats; field).
Qed.

Ltac angular_rate_entries :=
  rewrite rhs_w_column;
  unfold Spec.dw, Spec.M_vec, Spec.F_vec, Spec.F, Spec.L, Spec.I, Spec.I_inv, Spec.M;
  cbn -[float2R sin cos]; rewrite !rad_eq.

(** X9: the angular acceleration satisfies Euler's rotation equation:
    inertia times [rhs_w], plus the cross product of the angular velocity
    with the angular momentum, is the net moment, for every state and
    control. *)
Theorem rhs_w_euler_equation (x : DroneModel.State) (u : DroneModel.Control) :
  ca.plus (ca.mtimes (DroneModel.I_mat mc) (DroneModel.rhs_w mc x u))
          (ca.cross (DroneModel.w x) (DroneModel.angular_momentum mc x))
  = DroneModel.M_vector mc u.
Proof.
  destruct_state x. destruct_control u.
  angular_rate_entries.
  entrywise ltac:(eval_floats; field).
Qed.

(** X10: the yaw acceleration is the yaw coefficient times the fourth
    control, whatever the state and the other controls: with equal roll and
    pitch inertia no gyroscopic torque acts about the body z axis, and the
    gimbal angles and the throttle give none either. *)
Theorem yaw_acceleration (x : DroneModel.State) (u : DroneModel.Control) :
  ca.getitem (DroneModel.rhs_w mc x u) 2
  = ca.times (ca.sc (Constants.d mc)) (ca.getitem (DroneModel.u u) 3).
Proof.
  destruct_state x. destruct_control u.
  angular_rate_entries.
  entrywise ltac:(eval_floats; field).
Qed.

(** X11: the gyroscopic term does no work: the angular velocity dotted with
    inertia times [rhs_w] is the angular velocity dotted with the net
    moment. *)
Theorem gyroscopic_term_does_no_work (x : DroneModel.State) (u : DroneModel.Control) :
  ca.mtimes (ca.transpose (DroneModel.w x))
            (ca.mtimes (DroneModel.I_mat mc) (DroneModel.rhs_w mc x u))
  = ca.mtimes (ca.transpose (DroneModel.w x)) (DroneModel.M_vector mc u).
Proof.
  destruct_state x. destruct_control u.
  angular_rate_entries.
  entrywise ltac:(eval_floats; field).
Qed.

(** X12: with both gimbal angles at zero the thrust points along the body
    z axis and the only moment is the yaw moment: the velocity changes by
    thrust over mass along the rotated z axis plus gravity, and roll and
    pitch accelerate by the gyroscopic coupling alone. *)
Theorem zero_gimbal (x : DroneModel.State) (u2 u3 : R) :
  DroneModel.F_vector mc (0, 0, u2, u3) = ca.column [0; 0; Spec.F mc (0, 0, u2, u3)]
  /\ DroneModel.M_vector mc (0, 0, u2, u3) = ca.column [0; 0; Spec.M mc (0, 0, u2, u3)]
  /\ DroneModel.rhs_v mc x (0, 0, u2, u3)
     = ca.plus (ca.times (ca.sc (Spec.F mc (0, 0, u2, u3) / Constants.m mc))
                         (ca.mtimes (DroneModel.r_b2w x) (ca.column [0; 0; 1])))
               (of_ndarray (Constants.g mc))
  /\ DroneModel.rhs_w mc x (0, 0, u2, u3)
     = ca.column [0.8 * Spec.w1 x * Spec.w2 x;
                  - 0.8 * Spec.w0 x * Spec.w2 x;
                  Constants.d mc * u3].
Proof.
  destruct_state x.
  repeat split.
  - unfold DroneModel.F_vector. cbn -[float2R sin cos].
    rewrite !Rmult_0_r, sin_0, cos_0. unfold Spec.F. cbn -[float2R].
    entrywise ltac:(eval_floats; field).
  - unfold DroneModel.M_vector, DroneModel.F_vector. cbn -[float2R sin cos].
    rewrite !Rmult_0_r, sin_0, cos_0. unfold Spec.M. cbn -[float2R].
    entrywise ltac:(eval_floats; field).
  - unfold DroneModel.rhs_v. cbn -[ca.ediv float2R sin cos].
    rewrite !Rmult_0_r, sin_0, cos_0.
    rewrite !ediv_Val by (eval_floats; lra).
    unfold Spec.F. cbn -[float2R].
    entrywise ltac:(eval_floats; field).
  - angular_rate_entries. rewrite !Rmult_0_r, sin_0, cos_0.
    entrywise ltac:(eval_floats; field).
Qed.

(** ** The thrust curve *)

Lemma F_value (u : DroneModel.Control) : DroneModel.F mc u = ca.sc (Spec.F mc u).
Proof.
  destruct_control u. unfold DroneModel.F, Spec.F, ca.sc. cbn -[float2R].
  entrywise ltac:(ring).
Qed.

(** X13: on non-negative throttle the thrust is strictly increasing; it is
    never below its value [c = -0.024] at zero throttle, which is negative,
    and it is positive from throttle 0.05 on. *)
Theorem thrust_curve_shape (u u' : DroneModel.Control) :
  0 <= Spec.u2 u -> Spec.u2 u < Spec.u2 u' ->
  exists f f' : R,
    DroneModel.F mc u = ca.sc f /\ DroneModel.F mc u' = ca.sc f'
    /\ f < f'
    /\ - 0.024 <= f
    /\ (Spec.u2 u = 0 -> f = - 0.024)
    /\ (0.05 <= Spec.u2 u -> 0 < f).
Proof.
  intros H0 Hlt.
  exists (Spec.F mc u), (Spec.F mc u').
  split; [apply F_value | split; [apply F_value |]].
  destruct_control u. destruct_control u'.
  unfold Spec.F. cbn [Spec.u2] in *. cbn -[float2R].
  eval_floats.
  repeat split.
  - nra.
  - nra.
  - intros ->. lra.
  - intros H. nra.
Qed.

Lemma thrust_curve_shape_witness :
  exists f f' : R,
    DroneModel.F mc (0, 0, 0, 0) = ca.sc f /\ DroneModel.F mc (0, 0, 1, 0) = ca.sc f'
    /\ f < f'
    /\ - 0.024 <= f
    /\ (Spec.u2 (0, 0, 0, 0) = 0 -> f = - 0.024)
    /\ (0.05 <= Spec.u2 (0, 0, 0, 0) -> 0 < f).
Proof.
  apply (thrust_curve_shape (0, 0, 0, 0) (0, 0, 1, 0)); cbn; lra.
Defined.

(** X14: the throttle that balances the weight [m * 9.81] lies strictly
    between 2.529 and 2.53: at or below 2.529 the thrust is less than the
    weight, at or above 2.53 it is more.  The registry's [hover_thrust] is
    the lower end and so leaves the vehicle sinking. *)
Theorem hover_throttle_bracket (u : DroneModel.Control) (f : R) :
  0 <= Spec.u2 u ->
  DroneModel.F mc u = ca.sc f ->
  (Spec.u2 u <= 2.529 -> f < Constants.m mc * 9.81)
  /\ (2.53 <= Spec.u2 u -> Constants.m mc * 9.81 < f)
  /\ float2R (Constants.hover_thrust mc) = 2.529.
Proof.
  intros H0 HF. rewrite F_value in HF.
  assert (E : f = Spec.F mc u) by (unfold ca.sc in HF; injection HF as ->; reflexivity).
  subst f. clear HF.
  destruct_control u. unfold Spec.F. cbn [Spec.u2] in *. cbn -[float2R].
  eval_floats.
  repeat split.
  - intros H. nra.
  - intros H. nra.
Qed.

Lemma hover_throttle_bracket_witness :
  (Spec.u2 (0, 0, 1, 0) <= 2.529 -> Spec.F mc (0, 0, 1, 0) < Constants.m mc * 9.81)
  /\ (2.53 <= Spec.u2 (0, 0, 1, 0) -> Constants.m mc * 9.81 < Spec.F mc (0, 0, 1, 0))
  /\ float2R (Constants.hover_thrust mc) = 2.529.
Proof.
  apply (hover_throttle_bracket (0, 0, 1, 0) (Spec.F mc (0, 0, 1, 0))).
  - cbn; lra.
  - apply F_value.
Defined.

(** ** The reference of the controller *)

(** X15: the registry's reference state and control, given to the model:
    the initial state is the reference state, its quaternion has norm one,
    and position, attitude and angular velocity are at rest there; the
    velocity is not: it falls at 0.0067818592 m/s^2. *)
Theorem goal_is_rest_point (x : DroneModel.State) (u : DroneModel.Control) :
  DroneModel.state x = of_DM (Constants.xr mc) ->
  DroneModel.u u = of_DM (Constants.ur mc) ->
  of_DM (Constants.x0 mc) = of_DM (Constants.xr mc)
  /\ ca.norm_2 (DroneModel.q x) = ca.sc 1
  /\ DroneModel.rhs_p x = ca.column [0; 0; 0]
  /\ DroneModel.rhs_v mc x u = ca.column [0; 0; - 0.0067818592]
  /\ DroneModel.rhs_q x = ca.column [0; 0; 0; 0]
  /\ DroneModel.rhs_w mc x u = ca.column [0; 0; 0].
Proof.
  intros Hx Hu.
  assert (Ex : x = DroneModel.mkState (0, 0, 0) (0, 0, 0) (0, 0, 0, 1) (0, 0, 0)).
  { destruct_state x. unfold of_DM, ca.matrix in Hx. cbn -[float2R] in Hx.
    injection Hx as -> -> -> -> -> -> -> -> -> -> -> -> ->.
    repeat f_equal; eval_floats; lra. }
  assert (Eu : u = (0, 0, float2R (Constants.hover_thrust mc), 0)).
  { destruct_control u. unfold of_DM, ca.matrix in Hu. cbn -[float2R] in Hu.
    injection Hu as -> -> -> ->.
    repeat f_equal; eval_floats; lra. }
  subst x u. clear Hx Hu.
  split; [reflexivity | split; [| split; [reflexivity | split; [| split]]]].
  - cbn -[ca.esqrt].
    replace (0 + 0 * 0 + 0 * 0 + 0 * 0 + 1 * 1) with 1 by ring.
    rewrite esqrt_Val by lra. rewrite sqrt_1. reflexivity.
  - unfold DroneModel.rhs_v.
    cbn -[ca.ediv float2R sin cos].
    rewrite !Rmult_0_r, sin_0, cos_0.
    rewrite !ediv_Val by (eval_floats; lra).
    entrywise ltac:(eval_floats; field).
  - rewrite rhs_q_nonzero by (cbn; intros E; injection E as E; lra).
    unfold Spec.dq, Spec.q_n.
    generalize (/ Spec.norm2 (Spec.q (DroneModel.mkState (0, 0, 0) (0, 0, 0)
                                                         (0, 0, 0, 1) (0, 0, 0)))).
    intros k. cbn. entrywise ltac:(ring).
  - angular_rate_entries. rewrite !Rmult_0_r, sin_0, cos_0.
    entrywise ltac:(eval_floats; field).
Qed.

Lemma goal_is_rest_point_witness :
  of_DM (Constants.x0 mc) = of_DM (Constants.xr mc)
  /\ ca.norm_2 (DroneModel.q (DroneModel.mkState (0, 0, 0) (0, 0, 0) (0, 0, 0, 1) (0, 0, 0)))
     = ca.sc 1
  /\ DroneModel.rhs_p (DroneModel.mkState (0, 0, 0) (0, 0, 0) (0, 0, 0, 1) (0, 0, 0))
     = ca.column [0; 0; 0]
  /\ DroneModel.rhs_v mc (DroneModel.mkState (0, 0, 0) (0, 0, 0) (0, 0, 0, 1) (0, 0, 0))
                      (0, 0, 2.529, 0)
     = ca.column [0; 0; - 0.0067818592]
  /\ DroneModel.rhs_q (DroneModel.mkState (0, 0, 0) (0, 0, 0) (0, 0, 0, 1) (0, 0, 0))
     = ca.column [0; 0; 0; 0]
  /\ DroneModel.rhs_w mc (DroneModel.mkState (0, 0, 0) (0, 0, 0) (0, 0, 0, 1) (0, 0, 0))
                      (0, 0, 2.529, 0)
     = ca.column [0; 0; 0].
Proof.
  apply (goal_is_rest_point
           (DroneModel.mkState (0, 0, 0) (0, 0, 0) (0, 0, 0, 1) (0, 0, 0))
           (0, 0, 2.529, 0)).
  - unfold of_DM, ca.matrix. cbn -[float2R].
    entrywise ltac:(eval_floats; lra).
  - unfold of_DM, ca.matrix. cbn -[float2R].
    entrywise ltac:(eval_floats; lra).
Defined.

(** ** Kinematics of the rotation matrix *)

(** Derivative rules, stated on functions written as abstractions. *)
Lemma D_const (c t : R) : derivable_pt_lim (fun _ => c) t 0.
Proof. exact (derivable_pt_lim_const c t). Qed.

Lemma D_plus (f g : R -> R) (t a b : R) :
  derivable_pt_lim f t a -> derivable_pt_lim g t b ->
  derivable_pt_lim (fun s => f s + g s) t (a + b).
Proof. exact (derivable_pt_lim_plus f g t a b). Qed.

Lemma D_minus (f g : R -> R) (t a b : R) :
  derivable_pt_lim f t a -> derivable_pt_lim g t b ->
  derivable_pt_lim (fun s => f s - g s) t (a - b).
Proof. exact (derivable_pt_lim_minus f g t a b). Qed.

Lemma D_mult (f g : R -> R) (t a b : R) :
  derivable_pt_lim f t a -> derivable_pt_lim g t b ->
  derivable_pt_lim (fun s => f s * g s) t (a * g t + f t * b).
Proof. exact (derivable_pt_lim_mult f g t a b). Qed.

Lemma D_opp (f : R -> R) (t a : R) :
  derivable_pt_lim f t a -> derivable_pt_lim (fun s => - f s) t (- a).
Proof. exact (derivable_pt_lim_opp f t a). Qed.

Lemma D_eq (f : R -> R) (t a b : R) :
  derivable_pt_lim f t a -> a = b -> derivable_pt_lim f t b.
Proof. intros H <-. exact H. Qed.

Lemma dq_unit (x : DroneModel.State) :
  ca.norm_2 (DroneModel.q x) = ca.sc 1 ->
  Spec.dq x
  = [0.5 * (Spec.w2 x * Spec.q1 x - Spec.w1 x * Spec.q2 x + Spec.w0 x * Spec.q3 x);
     0.5 * (- Spec.w2 x * Spec.q0 x + Spec.w0 x * Spec.q2 x + Spec.w1 x * Spec.q3 x);
     0.5 * (Spec.w1 x * Spec.q0 x - Spec.w0 x * Spec.q1 x + Spec.w2 x * Spec.q3 x);
     0.5 * (- Spec.w0 x * Spec.q0 x - Spec.w1 x * Spec.q1 x - Spec.w2 x * Spec.q2 x)].
Proof.
  intros H. apply unit_quaternion in H.
  assert (Hn : Spec.norm2 (Spec.q x) = 1).
  { unfold Spec.norm2, Spec.q. cbn.
    replace (Spec.q0 x * Spec.q0 x
             + (Spec.q1 x * Spec.q1 x
                + (Spec.q2 x * Spec.q2 x + (Spec.q3 x * Spec.q3 x + 0))))
      with 1 by lra.
    apply sqrt_1. }
  unfold Spec.dq, Spec.q_n. rewrite Hn. cbn.
  repeat (apply f_equal2; [eval_floats; field |]). reflexivity.
Qed.

Ltac derive :=
  repeat first [ eassumption | apply D_const
               | eapply D_minus | eapply D_plus | eapply D_opp | eapply D_mult ].

Ltac unit_norm_residual H n k :=
  match goal with
  | |- ?lhs = ?rhs =>
      replace lhs with (rhs - (1 - n) * k) by (unfold n; eval_floats; field);
      rewrite H; ring
  end.

(** X16: along any differentiable trajectory whose quaternion moves as
    [rhs_q] says, at a time where the quaternion has norm one, every entry
    of the rotation matrix has the derivative given by the rigid-body
    kinematics: the matrix times the cross-product matrix of the body
    angular velocity. *)
Theorem r_b2w_kinematics (traj : R -> DroneModel.State) (t : R) (dq : list R) (i j : nat) :
  ca.norm_2 (DroneModel.q (traj t)) = ca.sc 1 ->
  DroneModel.rhs_q (traj t) = ca.column dq ->
  (forall k : nat, (k < 4)%nat ->
     derivable_pt_lim (fun s => nth k (Spec.q (traj s)) 0) t (nth k dq 0)) ->
  (i < 3)%nat -> (j < 3)%nat ->
  derivable_pt_lim
    (fun s => sx_entry (DroneModel.r_b2w (traj s)) i j) t
    (sx_entry (ca.mtimes (DroneModel.r_b2w (traj t))
                         (ca.matrix (Lin.skew (Spec.w (traj t))))) i j).
Proof.
  intros Hn Hrhs Hd Hi Hj.
  rewrite (rhs_q_nonzero _ (unit_quat_nonzero _ Hn)) in Hrhs.
  apply column_inj in Hrhs. subst dq. rewrite (dq_unit _ Hn) in Hd.
  pose proof (Hd 0%nat ltac:(lia)) as D0.
  pose proof (Hd 1%nat ltac:(lia)) as D1.
  pose proof (Hd 2%nat ltac:(lia)) as D2.
  pose proof (Hd 3%nat ltac:(lia)) as D3.
  clear Hd. cbn [nth Spec.q] in D0, D1, D2, D3.
  apply unit_quaternion in Hn.
  apply derivable_pt_lim_ext
    with (f := fun s => Lin.entry (Spec.Rq (traj s)) i j).
  { intros s. rewrite r_b2w_is_Rq.
    destruct i as [| [| [| i]]]; [| | | lia];
      (destruct j as [| [| [| j]]]; [| | | lia]); reflexivity. }
  rewrite r_b2w_is_Rq.
  set (n := Spec.q0 (traj t) * Spec.q0 (traj t) + Spec.q1 (traj t) * Spec.q1 (traj t)
            + Spec.q2 (traj t) * Spec.q2 (traj t) + Spec.q3 (traj t) * Spec.q3 (traj t)) in Hn.
  destruct i as [| [| [| i]]]; [| | | lia];
    (destruct j as [| [| [| j]]]; [| | | lia]);
    unfold Lin.entry, Spec.Rq; cbn;
    (eapply D_eq; [derive |]).
  all: cbv beta.
  - unit_norm_residual Hn n 0.
  - unit_norm_residual Hn n (- Spec.w2 (traj t)).
  - unit_norm_residual Hn n (Spec.w1 (traj t)).
  - unit_norm_residual Hn n (Spec.w2 (traj t)).
  - unit_norm_residual Hn n 0.
  - unit_norm_residual Hn n (- Spec.w0 (traj t)).
  - unit_norm_residual Hn n (- Spec.w1 (traj t)).
  - unit_norm_residual Hn n (Spec.w0 (traj t)).
  - unit_norm_residual Hn n 0.
Qed.

Lemma r_b2w_kinematics_witness :
  derivable_pt_lim
    (fun s => sx_entry (DroneModel.r_b2w (spin s)) 0 1) 0
    (sx_entry (ca.mtimes (DroneModel.r_b2w (spin 0))
                         (ca.matrix (Lin.skew (Spec.w (spin 0))))) 0 1).
Proof.
  assert (E0 : spin 0 = DroneModel.mkState (0, 0, 0) (0, 0, 0) (0, 0, 0, 1) (0, 0, 1)).
  { unfold spin. replace (0 / 2) with 0 by field. rewrite sin_0, cos_0. reflexivity. }
  apply (r_b2w_kinematics spin 0 [0; 0; 1 / 2; 0] 0 1).
  - rewrite E0. cbn -[ca.esqrt].
    replace (0 + 0 * 0 + 0 * 0 + 0 * 0 + 1 * 1) with 1 by ring.
    rewrite esqrt_Val by lra. rewrite sqrt_1. reflexivity.
  - rewrite E0.
    rewrite rhs_q_nonzero by (cbn; intros E; injection E as E; lra).
    unfold Spec.dq, Spec.q_n, Spec.norm2. cbn.
    replace (0 * 0 + (0 * 0 + (0 * 0 + (1 * 1 + 0)))) with 1 by ring.
    rewrite sqrt_1. entrywise ltac:(eval_floats; field).
  - intros k Hk.
    destruct k as [| [| [| [| k]]]]; [| | | | lia]; cbn [nth].
    + exact (D_const 0 0).
    + exact (D_const 0 0).
    + change (derivable_pt_lim (comp sin (fun s => s * / 2)) 0 (1 / 2)).
      eapply D_eq.
      * apply derivable_pt_lim_comp.
        -- apply D_mult; [apply derivable_pt_lim_id | apply D_const].
        -- apply derivable_pt_lim_sin.
      * cbv beta. unfold id. rewrite Rmult_0_l, cos_0. field.
    + change (derivable_pt_lim (comp cos (fun s => s * / 2)) 0 0).
      eapply D_eq.
      * apply derivable_pt_lim_comp.
        -- apply D_mult; [apply derivable_pt_lim_id | apply D_const].
        -- apply derivable_pt_lim_cos.
      * cbv beta. unfold id. rewrite Rmult_0_l, sin_0. field.
  - lia.
  - lia.
Defined.

(** ** The specific force *)

Lemma gimbal_direction_unit (f s0 c0 s1 c1 : R) :
  s0 * s0 + c0 * c0 = 1 -> s1 * s1 + c1 * c1 = 1 ->
  f * s1 * (f * s1) + f * (- s0 * c1) * (f * (- s0 * c1))
  + f * (c0 * c1) * (f * (c0 * c1)) = f * f.
Proof.
  intros E0 E1.
  transitivity (f * f * (s1 * s1 + (s0 * s0 + c0 * c0) * (c1 * c1))); [ring |].
  rewrite E0. replace (s1 * s1 + 1 * (c1 * c1)) with (s1 * s1 + c1 * c1) by ring.
  rewrite E1. ring.
Qed.

(** X17: for a unit quaternion, the acceleration less gravity has magnitude
    [|F| / m], whatever the attitude and the gimbal angles: they turn the
    thrust and never scale it. *)
Theorem specific_force_magnitude (x : DroneModel.State) (u : DroneModel.Control) :
  ca.norm_2 (DroneModel.q x) = ca.sc 1 ->
  ca.norm_2 (ca.minus (DroneModel.rhs_v mc x u) (of_ndarray (Constants.g mc)))
  = ca.sc (Rabs (Spec.F mc u) / Constants.m mc).
Proof.
  intros H. apply unit_quaternion in H.
  destruct_state x. destruct_control u.
  cbn [Spec.q0 Spec.q1 Spec.q2 Spec.q3 DroneModel.quat] in H.
  unfold DroneModel.rhs_v. cbn -[ca.norm_2 ca.ediv float2R sin cos].
  rewrite !ediv_Val by (eval_floats; lra).
  cbn -[ca.norm_2 float2R sin cos].
  change (ca.Dense [[ca.Val ?a]; [ca.Val ?b]; [ca.Val ?c]]) with (ca.column [a; b; c]).
  rewrite norm_2_column3. unfold ca.sc. do 4 f_equal.
  pose proof (sin2_cos2 (PI / 180 * u0)) as E0.
  pose proof (sin2_cos2 (PI / 180 * u1)) as E1.
  unfold Rsqr in E0, E1.
  set (s0 := sin (PI / 180 * u0)) in *. set (c0 := cos (PI / 180 * u0)) in *.
  set (s1 := sin (PI / 180 * u1)) in *. set (c1 := cos (PI / 180 * u1)) in *.
  unfold Spec.F. cbn -[float2R].
  match goal with
  | |- _ = Rabs ?e / ?d => set (f := e); set (m := d)
  end.
  assert (Hm : 0 < m) by (unfold m; eval_floats; lra).
  pose proof (gimbal_direction_unit f s0 c0 s1 c1 E0 E1) as G.
  pose proof (isometry_identity q0 q1 q2 q3 (f * s1) (f * (- s0 * c1)) (f * (c0 * c1)) H)
    as Iso.
  rewrite G in Iso.
  replace (Rabs f / m) with (sqrt ((f / m) * (f / m))).
  2:{ fold (Rsqr (f / m)). rewrite sqrt_Rsqr_abs.
      unfold Rdiv. rewrite Rabs_mult, (Rabs_right (/ m)); [reflexivity |].
      apply Rle_ge, Rlt_le, Rinv_0_lt_compat, Hm. }
  f_equal.
  transitivity (f * f / (m * m)); [| field; lra].
  rewrite <- Iso. eval_floats. field. lra.
Qed.

Lemma specific_force_magnitude_witness :
  ca.norm_2 (ca.minus
               (DroneModel.rhs_v mc
                  (DroneModel.mkState (0, 0, 0) (0, 0, 0) (0, 0, 0, 1) (0, 0, 0))
                  (10, 5, 2, 0))
               (of_ndarray (Constants.g mc)))
  = ca.sc (Rabs (Spec.F mc (10, 5, 2, 0)) / Constants.m mc).
Proof.
  apply (specific_force_magnitude
           (DroneModel.mkState (0, 0, 0) (0, 0, 0) (0, 0, 0, 1) (0, 0, 0))
           (10, 5, 2, 0)).
  apply norm_2_identity_quaternion.
Defined.

(** * Further properties of the registry *)

(** ** The inverse of a diagonal inertia matrix *)

Local Open Scope Q_scope.

Lemma Qeq_bool_zero_compat (x y : Q) : x == y -> Qeq_bool x 0 = Qeq_bool y 0.
Proof.
  intros E. destruct (Qeq_bool y 0) eqn:Hy.
  - apply Qeq_bool_iff. apply Qeq_bool_iff in Hy. rewrite E. exact Hy.
  - destruct (Qeq_bool x 0) eqn:Hx; [| reflexivity].
    apply Qeq_bool_iff in Hx. rewrite E in Hx. apply Qeq_bool_iff in Hx. congruence.
Qed.

Ltac simpl_inv := cbn -[Qplus Qminus Qmult Qinv Qeq_bool Qle_bool Qabs Qred].

(** X18: the inverse taken of a diagonal 3x3 matrix, as the registry builds
    [I] from the three principal moments, whatever their values: it is the
    diagonal matrix of the reciprocals when none of them is zero, and the
    call fails as soon as one of them is zero. *)
Theorem linalg_inv_diagonal (a b c : Q) :
  np.linalg_inv (np.array2 [[a; 0; 0]; [0; b; 0]; [0; 0; c]])
  = if Qeq_bool a 0 || Qeq_bool b 0 || Qeq_bool c 0 then None
    else Some (np.array2 [[Qred (/ a); 0; 0]; [0; Qred (/ b); 0]; [0; 0; Qred (/ c)]]).
Proof.
  unfold np.linalg_inv. simpl_inv.
  change (Qeq_bool 0 0) with true. cbv iota.
  destruct (Qeq_bool a 0) eqn:Ha; [reflexivity |]. simpl_inv.
  rewrite (Qeq_bool_zero_compat (0 - 0 * (/ a * 0)) 0) by ring.
  change (Qeq_bool 0 0) with true. cbv iota.
  rewrite (Qeq_bool_zero_compat (b - 0 * (/ a * 0)) b) by ring.
  destruct (Qeq_bool b 0) eqn:Hb; [reflexivity |]. simpl_inv.
  match goal with
  | |- context [Qeq_bool ?e 0] =>
      lazymatch e with
      | c => fail
      | _ => rewrite (Qeq_bool_zero_compat e c) by ring
      end
  end.
  destruct (Qeq_bool c 0) eqn:Hc; [reflexivity |]. simpl_inv.
  apply Qeq_bool_neq in Ha, Hb, Hc.
  do 2 f_equal.
  repeat (apply f_equal2;
          [repeat (apply f_equal2;
                   [first [ apply Qred_complete; field; repeat split; assumption
                          | match goal with
                            | |- Qred ?e = 0 => change (Qred e = Qred 0)
                            end;
                            apply Qred_complete; field; repeat split; assumption ] |]);
           reflexivity |]).
  reflexivity.
Qed.

(** ** The rows of the report *)

Local Open Scope string_scope.

Lemma append_empty_r (a : string) : a ++ "" = a.
Proof. induction a as [| ch a IH]; cbn; [reflexivity | rewrite IH; reflexivity]. Qed.

Lemma in_order_last (label : string) : Constants.in_order [label] label.
Proof.
  cbn [Constants.in_order]. exists "", "". split; [| exact I].
  cbn. rewrite append_empty_r. reflexivity.
Qed.

Section ReportRows.
Context {str_int : Str int} {str_float : Str float}.
Context {repr_ndarray : Str np.ndarray} {str_DM : Str DM.t}.

(** X19: whatever the way numbers, arrays and matrices are printed, the
    report holds the label of every row followed by the printed value of
    the attribute it names, in the order of the source, the dictionary of
    solver settings last; and it holds nothing of [I] or [I_diag]: two
    instances that differ in them alone have the same report. *)
Theorem report_lists_labels_and_values (this : Constants.t) :
  Constants.in_order (report_items this) (fst (Constants.__repr__ this))
  /\ forall (A : np.ndarray2) (diagonal : list float),
       fst (Constants.__repr__ (set_I this A diagonal)) = fst (Constants.__repr__ this).
Proof.
  split; [| reflexivity].
  unfold report_items, Constants.__repr__.
  cbn [Constants.run Constants.body fold_left Constants.assign Constants.iadd
       Constants.self Constants.s fst snd].
  unfold ljust.
  rewrite !append_assoc.
  repeat first [ exact I | apply in_order_last | apply in_order_here | apply in_order_skip ].
Qed.

End ReportRows.
